(** * Auth: token lifecycle and URL-rule authorization of [src/index.js]

    A shallow embedding of the [Auth] object of [src/index.js]:
    the TTL maps, the configuration methods, token creation and renewal,
    the authorization evaluator and the middleware.

    Conventions.
    - Timestamps and durations are JavaScript numbers holding integers
      (milliseconds); they are modelled as [Z].  A property read that
      yields [undefined] is [None].
    - JavaScript objects used as maps are [gmap string _], which holds their
      own properties.  The TTL maps are read under keys that callers choose,
      so their reads also see the members inherited from [Object.prototype]
      ([inherited], [get_prop]).  [params] and [request.headers] are read
      under the one key [tknAppName].  The cookies are read under the cookie
      name, which is taken not to be a member of the cookie collection itself
      (an inherited member, [length], an index): see [extractToken].
    - Numbers are integers whose sums stay within the range in which
      JavaScript adds exactly, up to 2^53 in magnitude ([safe_integer]):
      millisecond timestamps and durations are far inside it.
    - The private variables of [Auth] are only written by the configuration
      methods; they are gathered in the record [Config], which the request
      functions read.
    - The effects of request processing ([new Date()], [response.addHeader],
      [response.json], [print], the assignment of [request.userData] and
      [throw]) are threaded through the monad [M]. *)

From Stdlib Require Import ZArith Lia Ascii String List Bool.
From stdpp Require Import base option list strings gmap.

Local Open Scope string_scope.
Local Open Scope list_scope.
Local Open Scope Z_scope.

(** ** Data model *)

(** [userData.roles]: absent, a single string, or an array of strings. *)
Inductive Roles : Type :=
| RolesAbsent
| RolesStr (role : string)
| RolesArr (rs : list string).

(** The application payload stored in [udata.data]. *)
Record UserData : Type := mkUserData {
  roles : Roles;
  extra : string
}.

(** [token.udata] *)
Record UData : Type := mkUData {
  ud_app : string;
  ud_sub : string;
  ud_data : option UserData
}.

(** The token payload: [{exp, iss, rtexp, udata}]. *)
Record Token : Type := mkToken {
  tk_exp : option Z;
  tk_iss : option string;
  tk_rtexp : option Z;
  tk_udata : option UData
}.

(** A compiled URL rule: the pattern and the data configured for it (the
    permitted roles for an authorization rule, nothing for an exemption). *)
Record UrlRule : Type := mkUrlRule {
  rule_url : string;
  rule_data : list string
}.

(** [request.cookies]: absent, an object keyed by cookie name, or an
    array-like collection of cookies with [getName()] / [getValue()]. *)
Inductive Cookies : Type :=
| NoCookies
| CookieMap (m : gmap string string)
| CookieList (l : list (string * string)).

(** The parts of the request that the module reads. *)
Record Request : Type := mkRequest {
  requestURI : string;
  headers : gmap string string;
  cookies : Cookies
}.

(** The body passed to [response.json]. *)
Record JsonBody : Type := mkJsonBody {
  message : string;
  status : Z
}.

(** What has been written to the response: [addHeader] and [json] calls,
    oldest first. *)
Record Response : Type := mkResponse {
  resp_headers : list (string * string);
  resp_json : list (JsonBody * Z)
}.

(** The errors thrown during request processing.  The two refresh errors
    carry the date that is concatenated into their message. *)
Inductive Error : Type :=
| TokenNotFound
| RefreshTokenExpired (date : Z)
| RefreshDenied (date : Z)
| NotAllowed
| DeserializeError
| TypeError.

Definition error_message (e : Error) : string :=
  match e with
  | TokenNotFound => "Authentication Error: An authorization token was not found."
  | RefreshTokenExpired _ => "Authentication Error: RefreshToken is expired"
  | RefreshDenied _ => "Authentication Error: Access denied when trying to refresh token"
  | NotAllowed => "Authorization Error: You are not allowed to access this resource."
  | DeserializeError => "deserialize"
  | TypeError => "TypeError"
  end.

(** The private variables of [Auth]. *)
Record Config : Type := mkConfig {
  authAuthorizations : option (list UrlRule);
  authNotAuthenticatedUrls : option (list UrlRule);
  authCanRefreshTokenFn : option (Token -> bool);
  authAuthorizeFn :
    option (Request -> string -> list string -> option UserData -> UrlRule -> bool);
  authUseSecureAuthentication : bool;
  authAccessTokenTTL : gmap string (option Z);
  authRefreshTokenTTL : gmap string (option Z)
}.

Definition DEFAULT_ACCESS_TOKEN_TTL : Z := 5 * (1000 * 60).
Definition DEFAULT_REFRESH_TOKEN_TTL : Z := 8 * (1000 * 60 * 60).

(** The state of a freshly constructed [Auth]. *)
Definition initial : Config :=
  {| authAuthorizations := None;
     authNotAuthenticatedUrls := None;
     authCanRefreshTokenFn := None;
     authAuthorizeFn := None;
     authUseSecureAuthentication := false;
     authAccessTokenTTL := {[ "default" := Some DEFAULT_ACCESS_TOKEN_TTL ]};
     authRefreshTokenTTL := {[ "default" := Some DEFAULT_REFRESH_TOKEN_TTL ]} |}.

(** ** JavaScript truthiness and [||] *)

Definition truthy_num (v : option Z) : bool :=
  match v with
  | Some z => negb (z =? 0)
  | None => false
  end.

Definition truthy_str (v : option string) : bool :=
  match v with
  | Some s => negb (String.eqb s EmptyString)
  | None => false
  end.

Definition truthy_roles (r : Roles) : bool :=
  match r with
  | RolesAbsent => false
  | RolesStr s => negb (String.eqb s EmptyString)
  | RolesArr _ => true
  end.

(** [t + d] where [d] is a number, or [None] when it is [undefined] or an
    object; the sum is then [NaN] or a string, which no comparison accepts
    as a timestamp: [None].  The sum of two numbers is exact as long as it
    is a [safe_integer]. *)
Definition plus_num (t : Z) (d : option Z) : option Z :=
  match d with
  | Some z => Some (t + z)
  | None => None
  end.


(** ** TTL policy store *)

(** The members that every object inherits from [Object.prototype]. *)
Definition Object_prototype : list string :=
  [ "constructor"; "toString"; "toLocaleString"; "valueOf"; "hasOwnProperty";
    "isPrototypeOf"; "propertyIsEnumerable"; "__proto__"; "__defineGetter__";
    "__defineSetter__"; "__lookupGetter__"; "__lookupSetter__" ].

Definition inherited (key : string) : bool :=
  existsb (String.eqb key) Object_prototype.

(** What reading a property of a TTL map yields: a number, [undefined], or
    a function or object inherited from [Object.prototype]. *)
Inductive Property : Type :=
| PNumber (z : Z)
| PUndefined
| PInherited.

(** [map[key]]: the own property when there is one (a number, or
    [undefined] when that was assigned), else the inherited member. *)
Definition get_prop (map : gmap string (option Z)) (key : string) : Property :=
  match map !! key with
  | Some (Some z) => PNumber z
  | Some None => PUndefined
  | None => if inherited key then PInherited else PUndefined
  end.

(** [map[key] = value]: an own property is written, except under
    [__proto__], where assigning a number or [undefined] does nothing. *)
Definition set_prop (map : gmap string (option Z)) (key : string)
    (value : option Z) : gmap string (option Z) :=
  if String.eqb key "__proto__" then map else <[ key := value ]> map.

Definition truthy_prop (p : Property) : bool :=
  match p with
  | PNumber z => negb (z =? 0)
  | PUndefined => false
  | PInherited => true
  end.

(** [a || b] *)
Definition or_prop (a b : Property) : Property :=
  if truthy_prop a then a else b.

(** The number that a property holds, [None] when it is no number. *)
Definition number_of (p : Property) : option Z :=
  match p with
  | PNumber z => Some z
  | PUndefined => None
  | PInherited => None
  end.

(** The getters return [map[app] || map['default']]; the model keeps the
    number returned, and [None] when what is returned is [undefined] or an
    inherited member. *)
Definition getRefreshTokenTTL (cfg : Config) (app : string) : option Z :=
  number_of
    (or_prop (get_prop (authRefreshTokenTTL cfg) app)
       (get_prop (authRefreshTokenTTL cfg) "default")).

Definition getAccessTokenTTL (cfg : Config) (app : string) : option Z :=
  number_of
    (or_prop (get_prop (authAccessTokenTTL cfg) app)
       (get_prop (authAccessTokenTTL cfg) "default")).

(** The call shapes of [accessTokenTTL] / [refreshTokenTTL], which branch
    on [arguments.length]: no argument, the duration alone, or the app and
    the duration.  A duration is a number, or [None] for [undefined]. *)
Inductive TTLArgs : Type :=
| NoArgs
| OneArg (ttl : option Z)
| TwoArgs (app : string) (ttl : option Z).

(** The key that is written: without arguments [app] is [undefined], which
    as a property key reads ["undefined"]. *)
Definition ttl_key (a : TTLArgs) : string :=
  match a with
  | NoArgs => "undefined"
  | OneArg _ => "default"
  | TwoArgs app _ => app
  end.

Definition ttl_value (a : TTLArgs) : option Z :=
  match a with
  | NoArgs => None
  | OneArg ttl => ttl
  | TwoArgs _ ttl => ttl
  end.

Definition accessTokenTTL (a : TTLArgs) (cfg : Config) : Config :=
  {| authAuthorizations := authAuthorizations cfg;
     authNotAuthenticatedUrls := authNotAuthenticatedUrls cfg;
     authCanRefreshTokenFn := authCanRefreshTokenFn cfg;
     authAuthorizeFn := authAuthorizeFn cfg;
     authUseSecureAuthentication := authUseSecureAuthentication cfg;
     authAccessTokenTTL := set_prop (authAccessTokenTTL cfg) (ttl_key a) (ttl_value a);
     authRefreshTokenTTL := authRefreshTokenTTL cfg |}.

Definition refreshTokenTTL (a : TTLArgs) (cfg : Config) : Config :=
  {| authAuthorizations := authAuthorizations cfg;
     authNotAuthenticatedUrls := authNotAuthenticatedUrls cfg;
     authCanRefreshTokenFn := authCanRefreshTokenFn cfg;
     authAuthorizeFn := authAuthorizeFn cfg;
     authUseSecureAuthentication := authUseSecureAuthentication cfg;
     authAccessTokenTTL := authAccessTokenTTL cfg;
     authRefreshTokenTTL := set_prop (authRefreshTokenTTL cfg) (ttl_key a) (ttl_value a) |}.

(** ** The remaining configuration methods *)

Definition useSecureAuthentication (useSecure : bool) (cfg : Config) : Config :=
  {| authAuthorizations := authAuthorizations cfg;
     authNotAuthenticatedUrls := authNotAuthenticatedUrls cfg;
     authCanRefreshTokenFn := authCanRefreshTokenFn cfg;
     authAuthorizeFn := authAuthorizeFn cfg;
     authUseSecureAuthentication := useSecure;
     authAccessTokenTTL := authAccessTokenTTL cfg;
     authRefreshTokenTTL := authRefreshTokenTTL cfg |}.

Definition set_authAuthorizations (v : option (list UrlRule)) (cfg : Config) : Config :=
  {| authAuthorizations := v;
     authNotAuthenticatedUrls := authNotAuthenticatedUrls cfg;
     authCanRefreshTokenFn := authCanRefreshTokenFn cfg;
     authAuthorizeFn := authAuthorizeFn cfg;
     authUseSecureAuthentication := authUseSecureAuthentication cfg;
     authAccessTokenTTL := authAccessTokenTTL cfg;
     authRefreshTokenTTL := authRefreshTokenTTL cfg |}.

Definition set_authNotAuthenticatedUrls (v : option (list UrlRule)) (cfg : Config) : Config :=
  {| authAuthorizations := authAuthorizations cfg;
     authNotAuthenticatedUrls := v;
     authCanRefreshTokenFn := authCanRefreshTokenFn cfg;
     authAuthorizeFn := authAuthorizeFn cfg;
     authUseSecureAuthentication := authUseSecureAuthentication cfg;
     authAccessTokenTTL := authAccessTokenTTL cfg;
     authRefreshTokenTTL := authRefreshTokenTTL cfg |}.

Definition authorizeFn
    (fn : option (Request -> string -> list string -> option UserData -> UrlRule -> bool))
    (cfg : Config) : Config :=
  {| authAuthorizations := authAuthorizations cfg;
     authNotAuthenticatedUrls := authNotAuthenticatedUrls cfg;
     authCanRefreshTokenFn := authCanRefreshTokenFn cfg;
     authAuthorizeFn := fn;
     authUseSecureAuthentication := authUseSecureAuthentication cfg;
     authAccessTokenTTL := authAccessTokenTTL cfg;
     authRefreshTokenTTL := authRefreshTokenTTL cfg |}.

Definition canRefreshTokenFn (canRefreshFn : option (Token -> bool)) (cfg : Config) : Config :=
  {| authAuthorizations := authAuthorizations cfg;
     authNotAuthenticatedUrls := authNotAuthenticatedUrls cfg;
     authCanRefreshTokenFn := canRefreshFn;
     authAuthorizeFn := authAuthorizeFn cfg;
     authUseSecureAuthentication := authUseSecureAuthentication cfg;
     authAccessTokenTTL := authAccessTokenTTL cfg;
     authRefreshTokenTTL := authRefreshTokenTTL cfg |}.

(** Modelled from the spec: [urlParser.buildUrlRules] of the external
    package [url-parser], the [compile] of the URL Rule Matcher: one rule
    per configured pattern, in configured order, carrying the pattern's
    data. *)
Definition buildUrlRules (auths : list (string * list string)) : list UrlRule :=
  map (fun p => mkUrlRule (fst p) (snd p)) auths.

(** An array of bare URL patterns is compiled to rules without data. *)
Definition buildUrlRules_array (urls : list string) : list UrlRule :=
  buildUrlRules (map (fun u => (u, [])) urls).

Definition authorizations (auths : list (string * list string)) (cfg : Config) : Config :=
  set_authAuthorizations (Some (buildUrlRules auths)) cfg.

(** The argument of [notAuthenticatedUrls] / [addNotAuthenticatedUrls]:
    missing, one URL, or an array of URLs. *)
Inductive UrlsArg : Type :=
| UrlsAbsent
| UrlsString (url : string)
| UrlsArray (urls : list string).

(** [urls] when it is truthy, normalised to an array
    ([typeof urls === 'string' ? [urls] : urls]). *)
Definition urls_array (urls : UrlsArg) : option (list string) :=
  match urls with
  | UrlsAbsent => None
  | UrlsString u => if truthy_str (Some u) then Some [u] else None
  | UrlsArray l => Some l
  end.

Definition notAuthenticatedUrls (urls : UrlsArg) (cfg : Config) : Config :=
  match urls_array urls with
  | Some l => set_authNotAuthenticatedUrls (Some (buildUrlRules_array l)) cfg
  | None => cfg
  end.

(** [authNotAuthenticatedUrls.concat(...)] throws a [TypeError] when no
    exemption set has been configured yet: [None]. *)
Definition addNotAuthenticatedUrls (urls : UrlsArg) (cfg : Config) : option Config :=
  match urls_array urls with
  | Some l =>
      match authNotAuthenticatedUrls cfg with
      | Some old =>
          Some (set_authNotAuthenticatedUrls (Some (old ++ buildUrlRules_array l)) cfg)
      | None => None
      end
  | None => Some cfg
  end.

Definition clearNotAuthenticatedUrls (cfg : Config) : Config :=
  set_authNotAuthenticatedUrls (Some []) cfg.

(** The configurations that the configuration methods can produce. *)
Inductive reachable : Config -> Prop :=
| reach_initial : reachable initial
| reach_useSecure b cfg : reachable cfg -> reachable (useSecureAuthentication b cfg)
| reach_authorizations a cfg : reachable cfg -> reachable (authorizations a cfg)
| reach_authorizeFn f cfg : reachable cfg -> reachable (authorizeFn f cfg)
| reach_notAuthenticatedUrls u cfg :
    reachable cfg -> reachable (notAuthenticatedUrls u cfg)
| reach_addNotAuthenticatedUrls u cfg cfg' :
    reachable cfg -> addNotAuthenticatedUrls u cfg = Some cfg' -> reachable cfg'
| reach_clearNotAuthenticatedUrls cfg :
    reachable cfg -> reachable (clearNotAuthenticatedUrls cfg)
| reach_accessTokenTTL a cfg : reachable cfg -> reachable (accessTokenTTL a cfg)
| reach_refreshTokenTTL a cfg : reachable cfg -> reachable (refreshTokenTTL a cfg)
| reach_canRefreshTokenFn f cfg : reachable cfg -> reachable (canRefreshTokenFn f cfg).

(** ** The state and error monad of request processing *)

(** The mutable world of one request: the number of clock reads made so
    far, [request.userData] ([None] while it has not been assigned), the
    response, and what [print] has logged. *)
Record World : Type := mkWorld {
  tick : nat;
  userData : option (option UData);
  response : Response;
  printed : list Error
}.

Inductive Outcome (A : Type) : Type :=
| Return (a : A)
| Throw (e : Error).
Arguments Return {A} a.
Arguments Throw {A} e.

Definition M (A : Type) : Type := World -> Outcome A * World.

Definition ret {A : Type} (a : A) : M A := fun w => (Return a, w).

Definition throw {A : Type} (e : Error) : M A := fun w => (Throw e, w).

Definition bind {A B : Type} (m : M A) (k : A -> M B) : M B :=
  fun w =>
    match m w with
    | (Return a, w') => k a w'
    | (Throw e, w') => (Throw e, w')
    end.

(** [try { m; return true } catch (error) { h error; return false }] *)
Definition try_catch {A : Type} (m : M A) (h : Error -> M unit) : M bool :=
  fun w =>
    match m w with
    | (Return _, w') => (Return true, w')
    | (Throw e, w') =>
        match h e w' with
        | (Return _, w'') => (Return false, w'')
        | (Throw e', w'') => (Throw e', w'')
        end
    end.

Declare Scope auth_scope.
Delimit Scope auth_scope with auth.
Notation "x <- m ;; k" := (bind m (fun x => k))
  (at level 100, m at next level, right associativity) : auth_scope.
Notation "m ;;; k" := (bind m (fun _ => k))
  (at level 100, right associativity) : auth_scope.
Local Open Scope auth_scope.

Definition addHeader (name value : string) : M unit :=
  fun w =>
    (Return tt,
     {| tick := tick w;
        userData := userData w;
        response :=
          {| resp_headers := resp_headers (response w) ++ [(name, value)];
             resp_json := resp_json (response w) |};
        printed := printed w |}).

Definition json (body : JsonBody) (code : Z) : M unit :=
  fun w =>
    (Return tt,
     {| tick := tick w;
        userData := userData w;
        response :=
          {| resp_headers := resp_headers (response w);
             resp_json := resp_json (response w) ++ [(body, code)] |};
        printed := printed w |}).

Definition print (e : Error) : M unit :=
  fun w =>
    (Return tt,
     {| tick := tick w;
        userData := userData w;
        response := response w;
        printed := printed w ++ [e] |}).

(** [request.userData = udata] *)
Definition set_userData (u : option UData) : M unit :=
  fun w =>
    (Return tt,
     {| tick := tick w;
        userData := Some u;
        response := response w;
        printed := printed w |}).

(** ** Strings *)

(** [\w] of a JavaScript regular expression: [[A-Za-z0-9_]]. *)
Definition is_word_char (c : ascii) : bool :=
  let n := nat_of_ascii c in
  ((48 <=? n)%nat && (n <=? 57)%nat)
  || ((65 <=? n)%nat && (n <=? 90)%nat)
  || ((97 <=? n)%nat && (n <=? 122)%nat)
  || (n =? 95)%nat.

(** [s.replace(/;([\w])/g, '; $1')]: a space is inserted after every
    semicolon that is directly followed by a word character. *)
Fixpoint space_after_semicolons (s : string) : string :=
  match s with
  | EmptyString => EmptyString
  | String c rest =>
      if Ascii.eqb c ";"%char then
        match rest with
        | String d _ =>
            if is_word_char d
            then String c (String " "%char (space_after_semicolons rest))
            else String c (space_after_semicolons rest)
        | EmptyString => String c EmptyString
        end
      else String c (space_after_semicolons rest)
  end.

(** [a || b] where [b] is a string literal. *)
Definition or_else (a : option string) (b : string) : string :=
  match a with
  | Some s => if truthy_str (Some s) then s else b
  | None => b
  end.

(** [l.indexOf(x)], counting from [i]. *)
Fixpoint indexOf_from (i : Z) (l : list string) (x : string) : Z :=
  match l with
  | [] => -1
  | y :: l' => if String.eqb y x then i else indexOf_from (i + 1) l' x
  end.

Definition indexOf (l : list string) (x : string) : Z := indexOf_from 0 l x.

(** [userRoles] after [if (typeof userRoles === 'string') userRoles = [userRoles]]. *)
Definition roles_array (r : Roles) : list string :=
  match r with
  | RolesAbsent => []
  | RolesStr s => [s]
  | RolesArr l => l
  end.

Definition is_some {A : Type} (o : option A) : bool :=
  match o with
  | Some _ => true
  | None => false
  end.

(** [userData && userData.roles] *)
Definition roles_of (userData : option UserData) : Roles :=
  match userData with
  | Some d => roles d
  | None => RolesAbsent
  end.

(** ** Request processing *)

Section Auth.

(** The wall clock: the value of the [n]-th [new Date()] of the request. *)
Variable clock : nat -> Z.

(** The external signing primitive of package [jwt]; [None] is a throw. *)
Variable jwt_serialize : Token -> bool -> string.
Variable jwt_deserialize : string -> bool -> option string.

(** [JSON.parse] of a deserialized token: [None] is a throw,
    [Some None] a falsy value such as [null], [Some (Some t)] an object
    (a field that is missing or not of the expected type reads [None]). *)
Variable JSON_parse : string -> option (option Token).

(** The pattern test of one compiled rule of package [url-parser]. *)
Variable rule_test : UrlRule -> string -> bool.

(** What [urlParser.urlMatches] returns when it is given a predicate and
    no rule's pattern matches the URL: a rule, or nothing.  The package is
    not part of this repository, and the spec speaks both ways here (its
    matcher returns no rule, its evaluator authorizes), so the answer is
    left to the package. *)
Variable unmatched : list UrlRule -> string -> option UrlRule.

(** [new Date(new Date().getFullYear() + 5, 0, 1).toUTCString()] at a
    given time. *)
Variable expires_date : Z -> string.

(** [new Date().getTime()] *)
Definition now : M Z :=
  fun w =>
    (Return (clock (tick w)),
     {| tick := S (tick w);
        userData := userData w;
        response := response w;
        printed := printed w |}).

(** Modelled from the spec: [urlParser.urlMatches] of the external
    package [url-parser], the [match(ruleSet, uri, predicate?)] of the
    URL Rule Matcher.  Without a predicate: the first rule, in configured
    order, whose pattern matches the URL, or nothing.  With a predicate,
    when some rule's pattern matches the URL: the first rule whose pattern
    matches and for which the predicate returns true, or nothing.  With a
    predicate and no pattern that matches: [unmatched]. *)
Definition urlMatches (urlRules : list UrlRule) (url : string)
    (fn : option (UrlRule -> bool)) : option UrlRule :=
  match fn with
  | None => find (fun urlRule => rule_test urlRule url) urlRules
  | Some f =>
      if existsb (fun urlRule => rule_test urlRule url) urlRules
      then find (fun urlRule => rule_test urlRule url && f urlRule) urlRules
      else unmatched urlRules url
  end.

Definition isAuthorized (cfg : Config) (request : Request)
    (userData : option UserData) : bool :=
  match authAuthorizations cfg with
  | None => true
  | Some rules =>
      let userRoles := roles_of userData in
      if negb (is_some (authAuthorizeFn cfg)) && negb (truthy_roles userRoles)
      then true
      else
        let userRoles := roles_array userRoles in
        is_some
          (urlMatches rules (requestURI request)
             (Some (fun urlRule =>
                match authAuthorizeFn cfg with
                | Some f =>
                    f request (requestURI request) (rule_data urlRule) userData urlRule
                | None =>
                    existsb (fun role => indexOf userRoles role >? -1)
                      (rule_data urlRule)
                end)))
  end.

Definition isAuthenticatedUrl (cfg : Config) (requestURI : string) : bool :=
  match authNotAuthenticatedUrls cfg with
  | None => true
  | Some rules => negb (is_some (urlMatches rules requestURI None))
  end.

Definition rejection : JsonBody :=
  {| message := "Authentication Error: Not Authenticated"; status := 401 |}.

Definition notAuthenticated : M unit := json rejection 401.

Definition isAccessTokenAlive (token : Token) : M bool :=
  match tk_exp token with
  | Some e =>
      if truthy_num (Some e) then t <- now ;; ret (e >=? t) else ret false
  | None => ret false
  end.

Definition isRefreshTokenAlive (token : Token) : M bool :=
  match tk_rtexp token with
  | Some e =>
      if truthy_num (Some e) then t <- now ;; ret (e >=? t) else ret false
  | None => ret false
  end.

Definition getTokenName (params : gmap string string) (request : Request) : string :=
  or_else (params !! "tknAppName") (or_else (headers request !! "tknAppName") "tkn").

(** [cookies[name]], then the loop over an array of cookies.  The cookie
    name is taken not to be a member of the collection itself (a member
    inherited from its prototype, an index, [length]), and a cookie object
    to hold no cookie named [length]: there [cookies[name]] is the cookie's
    value or [undefined], and the loop runs on arrays only. *)
Definition extractToken (request : Request) (name : string) : option string :=
  match cookies request with
  | NoCookies => None
  | CookieMap m => m !! name
  | CookieList l =>
      match find (fun c => String.eqb (fst c) name) l with
      | Some c => Some (snd c)
      | None => None
      end
  end.

Definition readToken (request : Request) (name : string) : M (option Token) :=
  let tkn := extractToken request (or_else (Some name) "tkn") in
  match tkn with
  | Some s =>
      if truthy_str (Some s) then
        match jwt_deserialize s true with
        | Some js =>
            match JSON_parse js with
            | Some v => ret v
            | None => throw DeserializeError
            end
        | None => throw DeserializeError
        end
      else ret None
  | None => ret None
  end.

(** The cookie string that [setTokenIntoHeader] builds, [t] being the
    date read for [expires]. *)
Definition cookieStr (cfg : Config) (params : gmap string string)
    (request : Request) (serializedToken : string) (t : Z) : string :=
  let tknAppName := getTokenName params request in
  let secure := if authUseSecureAuthentication cfg then "secure;" else EmptyString in
  let expires := ";expires=" +:+ expires_date t in
  space_after_semicolons
    (tknAppName +:+ "=" +:+ serializedToken +:+ ";HttpOnly;path=/;" +:+ secure +:+ expires).

Definition setTokenIntoHeader (cfg : Config) (params : gmap string string)
    (request : Request) (serializedToken : string) : M unit :=
  t <- now ;;
  addHeader "Set-Cookie" (cookieStr cfg params request serializedToken t).

Definition tryToRefreshToken (cfg : Config) (params : gmap string string)
    (request : Request) (token : Token) : M Token :=
  alive <- isRefreshTokenAlive token ;;
  if negb alive then
    d <- now ;; throw (RefreshTokenExpired d)
  else
    (match authCanRefreshTokenFn cfg with
     | Some f => if negb (f token) then d <- now ;; throw (RefreshDenied d) else ret tt
     | None => ret tt
     end) ;;;
    t1 <- now ;;
    match tk_udata token with
    | None => throw TypeError
    | Some ud =>
        let token :=
          {| tk_exp := plus_num t1 (getAccessTokenTTL cfg (ud_app ud));
             tk_iss := tk_iss token;
             tk_rtexp := tk_rtexp token;
             tk_udata := tk_udata token |} in
        t2 <- now ;;
        let token :=
          {| tk_exp := tk_exp token;
             tk_iss := tk_iss token;
             tk_rtexp := plus_num t2 (getRefreshTokenTTL cfg (ud_app ud));
             tk_udata := tk_udata token |} in
        setTokenIntoHeader cfg params request (jwt_serialize token true) ;;;
        ret token
    end.

Definition proccessAndValidateToken (cfg : Config) (params : gmap string string)
    (request : Request) : M unit :=
  let tknAppName := getTokenName params request in
  token <- readToken request tknAppName ;;
  match token with
  | None => throw TokenNotFound
  | Some token =>
      alive <- isAccessTokenAlive token ;;
      token <- (if negb alive
                then tryToRefreshToken cfg params request token
                else ret token) ;;
      if negb (isAuthorized cfg request
                 (match tk_udata token with
                  | Some ud => ud_data ud
                  | None => None
                  end))
      then throw NotAllowed
      else set_userData (tk_udata token)
  end.

Definition middleware (cfg : Config) (params : gmap string string)
    (request : Request) : M bool :=
  if negb (isAuthenticatedUrl cfg (requestURI request)) then ret true
  else
    try_catch (proccessAndValidateToken cfg params request)
      (fun error => print error ;;; notAuthenticated).

Definition validateOnlyAuthorization (cfg : Config) (params : gmap string string)
    (request : Request) (userData : option UserData) : M bool :=
  try_catch
    (if negb (isAuthorized cfg request userData) then throw NotAllowed else ret tt)
    (fun error => print error ;;; notAuthenticated).

(** The object literal that [createAuthentication] serializes, with the
    two clock reads [t1] (for [exp]) and [t2] (for [rtexp]). *)
Definition authenticationPayload (cfg : Config) (t1 t2 : Z)
    (userId appId : string) (data : option UserData) : Token :=
  {| tk_exp := plus_num t1 (getAccessTokenTTL cfg appId);
     tk_iss := Some appId;
     tk_rtexp := plus_num t2 (getRefreshTokenTTL cfg appId);
     tk_udata := Some {| ud_app := appId; ud_sub := userId; ud_data := data |} |}.

Definition createAuthentication (cfg : Config) (params : gmap string string)
    (request : Request) (userId appId : string) (data : option UserData) : M string :=
  t1 <- now ;;
  t2 <- now ;;
  let tkn := jwt_serialize (authenticationPayload cfg t1 t2 userId appId data) true in
  setTokenIntoHeader cfg params request tkn ;;;
  ret tkn.

Definition destroyAuthentication (cfg : Config) (params : gmap string string)
    (request : Request) : M unit :=
  setTokenIntoHeader cfg params request "undefined".

End Auth.

(** The world after the [catch] block of [middleware] has handled the
    error [e] thrown in world [w]: [print(error)], then
    [notAuthenticated(response)]. *)
Definition rejected (e : Error) (w : World) : World :=
  {| tick := tick w;
     userData := userData w;
     response :=
       {| resp_headers := resp_headers (response w);
          resp_json := resp_json (response w) ++ [(rejection, 401)] |};
     printed := printed w ++ [e] |}.

(** The token after the two assignments of [tryToRefreshToken], [t1] and
    [t2] being the dates read for [exp] and [rtexp]. *)
Definition renewed (cfg : Config) (token : Token) (ud : UData) (t1 t2 : Z) : Token :=
  {| tk_exp := plus_num t1 (getAccessTokenTTL cfg (ud_app ud));
     tk_iss := tk_iss token;
     tk_rtexp := plus_num t2 (getRefreshTokenTTL cfg (ud_app ud));
     tk_udata := tk_udata token |}.

(** The world after [k] more clock reads. *)
Definition later (k : nat) (w : World) : World :=
  {| tick := k + tick w;
     userData := userData w;
     response := response w;
     printed := printed w |}.

(** The world after one more [response.addHeader]. *)
Definition with_header (h : string * string) (w : World) : World :=
  {| tick := tick w;
     userData := userData w;
     response :=
       {| resp_headers := resp_headers (response w) ++ [h];
          resp_json := resp_json (response w) |};
     printed := printed w |}.


(** A computation that leaves the JSON writes of the response alone. *)
Definition keeps_json {A : Type} (m : M A) : Prop :=
  forall w : World,
    resp_json (response (snd (m w))) = resp_json (response w).

(** A clock that never goes backwards. *)
Definition monotone (clock : nat -> Z) : Prop :=
  forall m n : nat, (m <= n)%nat -> clock m <= clock n.

(** ** A concrete instance of the external collaborators *)

Module Demo.

(** The request starts at one million milliseconds; each clock read
    comes one millisecond after the previous one. *)
Definition clock (n : nat) : Z := 1000000 + Z.of_nat n.

Definition serialize (t : Token) (secure : bool) : string :=
  or_else (tk_iss t) "anonymous".

Definition deserialize (s : string) (secure : bool) : option string := Some s.

Definition admin : UData :=
  {| ud_app := "app1";
     ud_sub := "42";
     ud_data := Some {| roles := RolesArr ["admin"]; extra := EmptyString |} |}.

(** Access expired, refresh alive. *)
Definition stale : Token :=
  {| tk_exp := Some 999000; tk_iss := Some "app1";
     tk_rtexp := Some 2000000; tk_udata := Some admin |}.

(** Access expired, refresh alive for longer than the refresh TTL. *)
Definition longlived : Token :=
  {| tk_exp := Some 999000; tk_iss := Some "app1";
     tk_rtexp := Some 99000000; tk_udata := Some admin |}.

(** Access and refresh both expired. *)
Definition dead : Token :=
  {| tk_exp := Some 998000; tk_iss := Some "app1";
     tk_rtexp := Some 999000; tk_udata := Some admin |}.

Definition parse (s : string) : option (option Token) :=
  if String.eqb s "stale" then Some (Some stale)
  else if String.eqb s "longlived" then Some (Some longlived)
  else if String.eqb s "dead" then Some (Some dead)
  else if String.eqb s "null" then Some None
  else None.

(** A pattern matches a URI literally; a final [*] matches any rest. *)
Fixpoint glob (p u : string) : bool :=
  match p with
  | EmptyString =>
      match u with
      | EmptyString => true
      | String _ _ => false
      end
  | String c p' =>
      match p' with
      | EmptyString =>
          if Ascii.eqb c "*"%char then true
          else
            match u with
            | String d EmptyString => Ascii.eqb c d
            | _ => false
            end
      | String _ _ =>
          match u with
          | String d u' => Ascii.eqb c d && glob p' u'
          | EmptyString => false
          end
      end
  end.

Definition rule_test (r : UrlRule) (uri : string) : bool := glob (rule_url r) uri.

(** A matcher that finds no rule for a URL that no pattern matches. *)
Definition unmatched (rules : list UrlRule) (uri : string) : option UrlRule := None.

Definition expires_date (t : Z) : string := "Mon, 01 Jan 2035 00:00:00 GMT".

Definition get (uri cookie : string) : Request :=
  {| requestURI := uri;
     headers := ∅;
     cookies := CookieMap {[ "tkn" := cookie ]} |}.

Definition w0 : World :=
  {| tick := 0;
     userData := None;
     response := {| resp_headers := []; resp_json := [] |};
     printed := [] |}.

(** [auth.authorizations({'/admin/*': ['admin']})] *)
Definition admin_only : Config := authorizations [("/admin/*", ["admin"])] initial.

(** [auth.notAuthenticatedUrls(['/public/*'])] on top of [admin_only]. *)
Definition with_public : Config :=
  notAuthenticatedUrls (UrlsArray ["/public/*"]) admin_only.

Definition caller (r : Roles) : option UserData :=
  Some {| roles := r; extra := EmptyString |}.

(** [auth.accessTokenTTL(36000000)]: ten hours of access, the refresh
    TTL left at its default of eight hours. *)
Definition long_access : Config := accessTokenTTL (OneArg (Some 36000000)) initial.

(** [auth.accessTokenTTL('app1', 0)] *)
Definition zero_ttl : Config := accessTokenTTL (TwoArgs "app1" (Some 0)) initial.

End Demo.

(** ** Vocabulary of the further properties *)

(** Some pattern of [urls], compiled as an exemption rule, matches [uri]. *)
Definition exempt_by (rule_test : UrlRule -> string -> bool) (urls : list string)
    (uri : string) : bool :=
  existsb (fun u => rule_test (mkUrlRule u []) uri) urls.

(** The string holds no semicolon. *)
Fixpoint no_semicolon (s : string) : bool :=
  match s with
  | EmptyString => true
  | String c rest => negb (Ascii.eqb c ";"%char) && no_semicolon rest
  end.

(** Some semicolon of the string is directly followed by a word character. *)
Fixpoint tight_semicolon (s : string) : bool :=
  match s with
  | EmptyString => false
  | String c rest =>
      (Ascii.eqb c ";"%char
       && match rest with
          | String d _ => is_word_char d
          | EmptyString => false
          end)
      || tight_semicolon rest
  end.

(** A computation that leaves [request.userData] alone. *)
Definition keeps_userData {A : Type} (m : M A) : Prop :=
  forall w : World, userData (snd (m w)) = userData w.

(** [token.udata && token.udata.data] *)
Definition token_data (token : Token) : option UserData :=
  match tk_udata token with
  | Some ud => ud_data ud
  | None => None
  end.

(** The world after [request.userData = u]. *)
Definition with_userData (u : option UData) (w : World) : World :=
  {| tick := tick w;
     userData := Some u;
     response := response w;
     printed := printed w |}.

(** A login followed by a request: the codec maps the one signed string
    back to the payload issued at time 1000000. *)
Module Login.

Definition payload : Token :=
  authenticationPayload initial 1000000 1000001 "42" "app1"
    (Demo.caller (RolesArr ["admin"])).

Definition serialize (t : Token) (secure : bool) : string := "signed".

Definition deserialize (s : string) (secure : bool) : option string :=
  if String.eqb s "signed" then Some "json" else None.

Definition parse (s : string) : option (option Token) :=
  if String.eqb s "json" then Some (Some payload) else None.

(** The request that comes 1000 clock reads after the login. *)
Definition later_world : World := later 1000 Demo.w0.

(** Every request is handed over to [authorizeFn], which lets all pass. *)
Definition allow_all : Config :=
  authorizeFn (Some (fun _ _ _ _ _ => true)) Demo.admin_only.

End Login.

(** * Properties *)

(** ** TTL policy store *)

(** Writing a property and reading it back. *)
Lemma get_prop_set_eq (map : gmap string (option Z)) (key : string) (value : option Z) :
  key <> "__proto__" ->
  get_prop (set_prop map key value) key
  = match value with
    | Some z => PNumber z
    | None => PUndefined
    end.
Proof.
  intros Hkey. unfold set_prop, get_prop.
  destruct (String.eqb_spec key "__proto__") as [E | _]; [contradiction |].
  rewrite lookup_insert_eq. destruct value; reflexivity.
Qed.

(** Writing a property leaves the other keys as they read. *)
Lemma get_prop_set_ne (map : gmap string (option Z)) (key key' : string)
    (value : option Z) :
  key' <> key ->
  get_prop (set_prop map key value) key' = get_prop map key'.
Proof.
  intros Hne. unfold set_prop, get_prop.
  destruct (String.eqb key "__proto__"); [reflexivity |].
  rewrite lookup_insert_ne by congruence. reflexivity.
Qed.

Lemma or_prop_same (p : Property) : or_prop p p = p.
Proof. unfold or_prop. destruct (truthy_prop p); reflexivity. Qed.

Lemma or_prop_falsy (a b : Property) : truthy_prop a = false -> or_prop a b = b.
Proof. intros H. unfold or_prop. rewrite H. reflexivity. Qed.

Lemma or_prop_truthy (a b : Property) : truthy_prop a = true -> or_prop a b = a.
Proof. intros H. unfold or_prop. rewrite H. reflexivity. Qed.

(** What [map[app] || map['default']] is, by the own entry of [app]. *)
Lemma ttl_lookup_cases (map : gmap string (option Z)) (app : string) :
  (forall v, map !! app = Some (Some v) -> v <> 0 ->
     number_of (or_prop (get_prop map app) (get_prop map "default")) = Some v)
  /\ (map !! app = Some (Some 0) \/ map !! app = Some None ->
      number_of (or_prop (get_prop map app) (get_prop map "default"))
      = number_of (or_prop (get_prop map "default") (get_prop map "default")))
  /\ (map !! app = None -> inherited app = false ->
      number_of (or_prop (get_prop map app) (get_prop map "default"))
      = number_of (or_prop (get_prop map "default") (get_prop map "default")))
  /\ (map !! app = None -> inherited app = true ->
      number_of (or_prop (get_prop map app) (get_prop map "default")) = None).
Proof.
  split; [| split; [| split]].
  - intros v Hv Hnz.
    assert (Hp : get_prop map app = PNumber v)
      by (unfold get_prop; rewrite Hv; reflexivity).
    rewrite Hp, or_prop_truthy; [reflexivity |]. simpl.
    destruct (Z.eqb_spec v 0) as [E | _]; [contradiction | reflexivity].
  - intros Hv.
    assert (Hp : truthy_prop (get_prop map app) = false)
      by (unfold get_prop; destruct Hv as [-> | ->]; reflexivity).
    rewrite (or_prop_falsy _ _ Hp), or_prop_same. reflexivity.
  - intros Hv Hi.
    assert (Hp : truthy_prop (get_prop map app) = false)
      by (unfold get_prop; rewrite Hv, Hi; reflexivity).
    rewrite (or_prop_falsy _ _ Hp), or_prop_same. reflexivity.
  - intros Hv Hi.
    assert (Hp : get_prop map app = PInherited)
      by (unfold get_prop; rewrite Hv, Hi; reflexivity).
    rewrite Hp. reflexivity.
Qed.

(** C4, as stated, fails: after [auth.accessTokenTTL('app1', 0)] the map
    holds a per-app entry for [app1], yet [getAccessTokenTTL('app1')]
    returns the default of five minutes, not the configured [0]. *)
Lemma getAccessTokenTTL_zero_entry_ignored :
  reachable Demo.zero_ttl
  /\ authAccessTokenTTL Demo.zero_ttl !! "app1" = Some (Some 0)
  /\ getAccessTokenTTL Demo.zero_ttl "app1" = Some 300000
  /\ getAccessTokenTTL Demo.zero_ttl "app1" <> Some 0.
Proof.
  split; [apply reach_accessTokenTTL, reach_initial |].
  split; [reflexivity |]. split; [reflexivity |]. discriminate.
Qed.

(** C4, amended: [getAccessTokenTTL] and [getRefreshTokenTTL] return the
    per-app duration whenever one is present and is a number other than
    [0]; they return what they return for ["default"] when the per-app
    entry is [0] or [undefined], and when there is no per-app entry and the
    app is not named like a member inherited from [Object.prototype]; what
    they return for ["default"] is the [default] entry. *)
Theorem getTTL_per_app_or_default (cfg : Config) (app : string) :
  (forall v, authAccessTokenTTL cfg !! app = Some (Some v) -> v <> 0 ->
             getAccessTokenTTL cfg app = Some v)
  /\ (authAccessTokenTTL cfg !! app = Some (Some 0)
      \/ authAccessTokenTTL cfg !! app = Some None ->
      getAccessTokenTTL cfg app = getAccessTokenTTL cfg "default")
  /\ (authAccessTokenTTL cfg !! app = None -> inherited app = false ->
      getAccessTokenTTL cfg app = getAccessTokenTTL cfg "default")
  /\ (forall d, authAccessTokenTTL cfg !! "default" = Some d ->
                getAccessTokenTTL cfg "default" = d)
  /\ (forall v, authRefreshTokenTTL cfg !! app = Some (Some v) -> v <> 0 ->
                getRefreshTokenTTL cfg app = Some v)
  /\ (authRefreshTokenTTL cfg !! app = Some (Some 0)
      \/ authRefreshTokenTTL cfg !! app = Some None ->
      getRefreshTokenTTL cfg app = getRefreshTokenTTL cfg "default")
  /\ (authRefreshTokenTTL cfg !! app = None -> inherited app = false ->
      getRefreshTokenTTL cfg app = getRefreshTokenTTL cfg "default")
  /\ (forall d, authRefreshTokenTTL cfg !! "default" = Some d ->
                getRefreshTokenTTL cfg "default" = d).
Proof.
  assert (Hdefault : forall (map : gmap string (option Z)) (d : option Z),
            map !! "default" = Some d ->
            number_of (or_prop (get_prop map "default") (get_prop map "default")) = d).
  { intros map d Hd. rewrite or_prop_same. unfold get_prop. rewrite Hd.
    destruct d; reflexivity. }
  unfold getAccessTokenTTL, getRefreshTokenTTL.
  destruct (ttl_lookup_cases (authAccessTokenTTL cfg) app) as [Ha1 [Ha2 [Ha3 _]]].
  destruct (ttl_lookup_cases (authRefreshTokenTTL cfg) app) as [Hr1 [Hr2 [Hr3 _]]].
  repeat split; try assumption.
  - apply Hdefault.
  - apply Hdefault.
Qed.

(** ** Token creation *)

(** C5, as stated, fails: [auth.accessTokenTTL(36000000)] is a reachable
    configuration, and the token that [createAuthentication] then issues
    at time 1000000 has [exp = 37000000] and [rtexp = 29800001 < exp]. *)
Lemma createAuthentication_rtexp_below_exp :
  reachable Demo.long_access
  /\ fst (createAuthentication Demo.clock Demo.serialize Demo.expires_date
            Demo.long_access ∅ (Demo.get "/login" EmptyString) "42" "app1" None Demo.w0)
     = Return (Demo.serialize
                 (authenticationPayload Demo.long_access 1000000 1000001 "42" "app1" None)
                 true)
  /\ tk_exp (authenticationPayload Demo.long_access 1000000 1000001 "42" "app1" None)
     = Some 37000000
  /\ tk_rtexp (authenticationPayload Demo.long_access 1000000 1000001 "42" "app1" None)
     = Some 29800001
  /\ 29800001 < 37000000.
Proof.
  split; [apply reach_accessTokenTTL, reach_initial |].
  repeat split; try reflexivity.
Qed.

(** C5, amended: when the refresh TTL in force for the app is at least its
    access TTL (as with the defaults of five minutes and eight hours) and
    the clock does not go backwards between the two reads,
    [createAuthentication] issues a payload with [rtexp >= exp]. *)
Theorem createAuthentication_rtexp_ge_exp
    (clock : nat -> Z) (jwt_serialize : Token -> bool -> string)
    (expires_date : Z -> string) (cfg : Config) (params : gmap string string)
    (request : Request) (userId appId : string) (data : option UserData)
    (w : World) (A R : Z) :
  monotone clock ->
  getAccessTokenTTL cfg appId = Some A ->
  getRefreshTokenTTL cfg appId = Some R ->
  A <= R ->
  exists (payload : Token) (e r : Z),
    payload = authenticationPayload cfg (clock (tick w)) (clock (S (tick w)))
                userId appId data
    /\ fst (createAuthentication clock jwt_serialize expires_date cfg params request
              userId appId data w)
       = Return (jwt_serialize payload true)
    /\ tk_exp payload = Some e
    /\ tk_rtexp payload = Some r
    /\ r >= e.
Proof.
  intros Hmono HA HR Hle.
  exists (authenticationPayload cfg (clock (tick w)) (clock (S (tick w))) userId appId data),
         (clock (tick w) + A), (clock (S (tick w)) + R).
  split; [reflexivity |]. split; [reflexivity |].
  simpl. rewrite HA, HR. simpl.
  split; [reflexivity |]. split; [reflexivity |].
  pose proof (Hmono (tick w) (S (tick w)) (Nat.le_succ_diag_r _)). lia.
Qed.

Lemma demo_clock_monotone : monotone Demo.clock.
Proof. intros m n Hmn. unfold Demo.clock. lia. Qed.

(** The default TTLs: a token created for [app1] at time 1000000. *)
Lemma createAuthentication_rtexp_ge_exp_default :
  exists (payload : Token) (e r : Z),
    payload = authenticationPayload initial (Demo.clock 0) (Demo.clock 1) "42" "app1" None
    /\ fst (createAuthentication Demo.clock Demo.serialize Demo.expires_date initial ∅
              (Demo.get "/login" EmptyString) "42" "app1" None Demo.w0)
       = Return (Demo.serialize payload true)
    /\ tk_exp payload = Some e
    /\ tk_rtexp payload = Some r
    /\ r >= e.
Proof.
  apply (createAuthentication_rtexp_ge_exp Demo.clock Demo.serialize Demo.expires_date
           initial ∅ (Demo.get "/login" EmptyString) "42" "app1" None Demo.w0 300000 28800000).
  - exact demo_clock_monotone.
  - reflexivity.
  - reflexivity.
  - lia.
Defined.

(** ** Authorization *)

Lemma indexOf_from_spec (l : list string) (x : string) (i : Z) :
  0 <= i ->
  (indexOf_from i l x = -1 /\ ~ In x l) \/ (i <= indexOf_from i l x /\ In x l).
Proof.
  revert i. induction l as [| y l IH]; intros i Hi; simpl.
  - left. split; [reflexivity | tauto].
  - destruct (String.eqb_spec y x) as [-> | Hne].
    + right. split; [lia | left; reflexivity].
    + destruct (IH (i + 1) ltac:(lia)) as [[E Hn] | [Hle Hin]].
      * left. split; [exact E |]. intros [Hy | Hx]; [exact (Hne Hy) | exact (Hn Hx)].
      * right. split; [lia | right; exact Hin].
Qed.

Lemma indexOf_found (l : list string) (x : string) :
  (indexOf l x >? -1) = true <-> In x l.
Proof.
  unfold indexOf.
  destruct (indexOf_from_spec l x 0 ltac:(lia)) as [[E Hn] | [Hle Hin]].
  - rewrite E. split; [discriminate | intros Hin; contradiction].
  - split; [intros _; exact Hin |]. intros _. apply Z.gtb_lt. lia.
Qed.

(** The default predicate of [isAuthorized]: some role of the rule is one
    of the caller's roles. *)
Lemma some_role_spec (userRoles data : list string) :
  existsb (fun role => indexOf userRoles role >? -1) data = true
  <-> exists role, In role data /\ In role userRoles.
Proof.
  rewrite existsb_exists. split; intros [role [Hd Hr]]; exists role; split; try exact Hd.
  - apply indexOf_found. exact Hr.
  - apply indexOf_found. exact Hr.
Qed.

Lemma is_some_find {A : Type} (f : A -> bool) (l : list A) :
  is_some (find f l) = existsb f l.
Proof.
  induction l as [| a l IH]; simpl; [reflexivity |].
  destruct (f a); simpl; [reflexivity | exact IH].
Qed.

Section Authorization.

Variable rule_test : UrlRule -> string -> bool.
Variable unmatched : list UrlRule -> string -> option UrlRule.

(** Some rule's pattern matches the URI. *)
Lemma matched_existsb (rules : list UrlRule) (uri : string) :
  (exists r, In r rules /\ rule_test r uri = true)
  <-> existsb (fun r => rule_test r uri) rules = true.
Proof. symmetry. apply existsb_exists. Qed.

(** With a predicate, on a URI that some rule's pattern matches,
    [urlMatches] finds a rule exactly when the predicate accepts a rule
    whose pattern matches. *)
Lemma urlMatches_matched (rules : list UrlRule) (uri : string) (f : UrlRule -> bool) :
  (exists r, In r rules /\ rule_test r uri = true) ->
  is_some (urlMatches rule_test unmatched rules uri (Some f)) = true
  <-> exists r, In r rules /\ rule_test r uri = true /\ f r = true.
Proof.
  intros Hm. apply matched_existsb in Hm. unfold urlMatches. rewrite Hm.
  rewrite is_some_find, existsb_exists.
  split.
  - intros [r [Hin Hr]]. apply andb_true_iff in Hr as [Ht Hf]. eauto.
  - intros [r [Hin [Ht Hf]]]. exists r. split; [exact Hin |].
    apply andb_true_iff. split; assumption.
Qed.

(** On a URI that no rule's pattern matches, once the two guards are
    passed, [isAuthorized] returns what the package returns there. *)
Lemma isAuthorized_unmatched (cfg : Config) (request : Request)
    (userData : option UserData) (rules : list UrlRule) :
  authAuthorizations cfg = Some rules ->
  is_some (authAuthorizeFn cfg) = true \/ truthy_roles (roles_of userData) = true ->
  existsb (fun r => rule_test r (requestURI request)) rules = false ->
  isAuthorized rule_test unmatched cfg request userData
  = is_some (unmatched rules (requestURI request)).
Proof.
  intros Hrules Hguard Hno. unfold isAuthorized. rewrite Hrules.
  assert (Hg : negb (is_some (authAuthorizeFn cfg))
               && negb (truthy_roles (roles_of userData)) = false).
  { destruct Hguard as [-> | ->]; simpl; [reflexivity | apply andb_false_r]. }
  rewrite Hg. simpl. unfold urlMatches. rewrite Hno. reflexivity.
Qed.

(** With rules configured, roles present and no custom function, on a URI
    that some rule's pattern matches, [isAuthorized] holds exactly when a
    rule matches the URI and shares a role with the caller. *)
Lemma isAuthorized_by_roles (cfg : Config) (request : Request)
    (userData : option UserData) (rules : list UrlRule) :
  authAuthorizeFn cfg = None ->
  authAuthorizations cfg = Some rules ->
  truthy_roles (roles_of userData) = true ->
  (exists r, In r rules /\ rule_test r (requestURI request) = true) ->
  isAuthorized rule_test unmatched cfg request userData = true
  <-> exists r, In r rules /\ rule_test r (requestURI request) = true
               /\ exists role, In role (rule_data r)
                               /\ In role (roles_array (roles_of userData)).
Proof.
  intros Hfn Hrules Htruthy Hm. unfold isAuthorized.
  rewrite Hrules, Hfn, Htruthy. cbn [is_some negb andb]. cbv zeta.
  etransitivity; [exact (urlMatches_matched rules (requestURI request) _ Hm) |].
  split.
  - intros [r [Hin [Ht Hs]]]. exists r. split; [exact Hin |]. split; [exact Ht |].
    apply some_role_spec. exact Hs.
  - intros [r [Hin [Ht Hs]]]. exists r. split; [exact Hin |]. split; [exact Ht |].
    apply some_role_spec. exact Hs.
Qed.

End Authorization.

(** C3, as stated, fails: an empty array of roles is truthy, so the caller
    [{roles: []}] is checked against the rules and is denied [/admin/reports]. *)
Lemma isAuthorized_empty_roles_array_denied :
  authAuthorizeFn Demo.admin_only = None
  /\ roles_array (roles_of (Demo.caller (RolesArr []))) = []
  /\ isAuthorized Demo.rule_test Demo.unmatched Demo.admin_only (Demo.get "/admin/reports" EmptyString)
       (Demo.caller (RolesArr [])) = false.
Proof. repeat split. Qed.

(** C3, amended: for every request URI and caller data, if no
    authorization rule set has been configured, or if no custom authorize
    function is configured and the caller's roles are absent or the empty
    string (the falsy values), then [isAuthorized] returns true. *)
Theorem isAuthorized_fail_open
    (rule_test : UrlRule -> string -> bool)
    (unmatched : list UrlRule -> string -> option UrlRule) (cfg : Config) (request : Request)
    (userData : option UserData) :
  authAuthorizations cfg = None
  \/ (authAuthorizeFn cfg = None
      /\ (roles_of userData = RolesAbsent \/ roles_of userData = RolesStr EmptyString)) ->
  isAuthorized rule_test unmatched cfg request userData = true.
Proof.
  intros [Hnone | [Hfn Hroles]]; unfold isAuthorized.
  - rewrite Hnone. reflexivity.
  - destruct (authAuthorizations cfg) as [rules |]; [| reflexivity].
    rewrite Hfn. destruct Hroles as [-> | ->]; reflexivity.
Qed.

(** No rule set; no caller data; the empty string as roles. *)
Lemma isAuthorized_fail_open_demo :
  isAuthorized Demo.rule_test Demo.unmatched initial (Demo.get "/admin/reports" EmptyString)
    (Demo.caller (RolesArr [])) = true
  /\ isAuthorized Demo.rule_test Demo.unmatched Demo.admin_only (Demo.get "/admin/reports" EmptyString)
       None = true
  /\ isAuthorized Demo.rule_test Demo.unmatched Demo.admin_only (Demo.get "/admin/reports" EmptyString)
       (Demo.caller (RolesStr EmptyString)) = true.
Proof.
  split; [| split].
  - apply (isAuthorized_fail_open Demo.rule_test Demo.unmatched initial). left. reflexivity.
  - apply (isAuthorized_fail_open Demo.rule_test Demo.unmatched Demo.admin_only).
    right. split; [reflexivity | left; reflexivity].
  - apply (isAuthorized_fail_open Demo.rule_test Demo.unmatched Demo.admin_only).
    right. split; [reflexivity | right; reflexivity].
Defined.

(** C7, as stated, fails: the caller [{}] holds no role at all, so its
    role set is disjoint from the roles of the rule [/admin/*] that matches
    [/admin/reports], yet [isAuthorized] is true. *)
Lemma isAuthorized_absent_roles_allowed :
  authAuthorizeFn Demo.admin_only = None
  /\ authAuthorizations Demo.admin_only = Some [mkUrlRule "/admin/*" ["admin"]]
  /\ Demo.rule_test (mkUrlRule "/admin/*" ["admin"]) "/admin/reports" = true
  /\ roles_array (roles_of (Demo.caller RolesAbsent)) = []
  /\ isAuthorized Demo.rule_test Demo.unmatched Demo.admin_only (Demo.get "/admin/reports" EmptyString)
       (Demo.caller RolesAbsent) = true.
Proof. repeat split. Qed.

(** C7, amended: with no custom authorize function configured, for every
    request URI matched by a rule of the configured rule set: for a caller
    whose roles are present (an array, or a non-empty string treated as a
    one-element set), if the caller's roles are disjoint from the roles of
    every rule matching the URI, [isAuthorized] returns false; and if the
    caller holds at least one role of a rule matching the URI,
    [isAuthorized] returns true. *)
Theorem isAuthorized_role_check
    (rule_test : UrlRule -> string -> bool)
    (unmatched : list UrlRule -> string -> option UrlRule) (cfg : Config)
    (request : Request) (userData : option UserData) (rules : list UrlRule) :
  authAuthorizeFn cfg = None ->
  authAuthorizations cfg = Some rules ->
  (exists r, In r rules /\ rule_test r (requestURI request) = true) ->
  (truthy_roles (roles_of userData) = true ->
   (forall r, In r rules -> rule_test r (requestURI request) = true ->
      forall role, In role (rule_data r) ->
                   ~ In role (roles_array (roles_of userData))) ->
   isAuthorized rule_test unmatched cfg request userData = false)
  /\ ((exists r, In r rules /\ rule_test r (requestURI request) = true
                 /\ exists role, In role (rule_data r)
                                 /\ In role (roles_array (roles_of userData))) ->
      isAuthorized rule_test unmatched cfg request userData = true).
Proof.
  intros Hfn Hrules Hm. split.
  - intros Htruthy Hdisj.
    apply not_true_is_false. intros Hyes.
    destruct (proj1 (isAuthorized_by_roles rule_test unmatched cfg request userData
                       rules Hfn Hrules Htruthy Hm) Hyes)
      as [r [Hin [Ht [role [Hd Hr]]]]].
    exact (Hdisj r Hin Ht role Hd Hr).
  - intros Hex.
    destruct (truthy_roles (roles_of userData)) eqn:Htruthy.
    + apply (proj2 (isAuthorized_by_roles rule_test unmatched cfg request userData
                      rules Hfn Hrules Htruthy Hm)).
      exact Hex.
    + unfold isAuthorized. rewrite Hrules, Hfn, Htruthy. reflexivity.
Qed.

(** [/admin/reports] under [{'/admin/*': ['admin']}]: the caller
    [{roles: 'user'}] is refused, the caller [{roles: ['admin', 'user']}] passes. *)
Lemma isAuthorized_role_check_demo :
  isAuthorized Demo.rule_test Demo.unmatched Demo.admin_only
    (Demo.get "/admin/reports" EmptyString) (Demo.caller (RolesStr "user")) = false
  /\ isAuthorized Demo.rule_test Demo.unmatched Demo.admin_only
       (Demo.get "/admin/reports" EmptyString)
       (Demo.caller (RolesArr ["admin"; "user"])) = true.
Proof.
  assert (Hm : exists r, In r [mkUrlRule "/admin/*" ["admin"]]
                         /\ Demo.rule_test r "/admin/reports" = true).
  { exists (mkUrlRule "/admin/*" ["admin"]). split; [left; reflexivity | reflexivity]. }
  split.
  - apply (isAuthorized_role_check Demo.rule_test Demo.unmatched Demo.admin_only
             (Demo.get "/admin/reports" EmptyString) (Demo.caller (RolesStr "user"))
             [mkUrlRule "/admin/*" ["admin"]] eq_refl eq_refl Hm).
    + reflexivity.
    + intros r [<- | []] _ role [<- | []] [Habs | []]. discriminate Habs.
  - apply (isAuthorized_role_check Demo.rule_test Demo.unmatched Demo.admin_only
             (Demo.get "/admin/reports" EmptyString)
             (Demo.caller (RolesArr ["admin"; "user"]))
             [mkUrlRule "/admin/*" ["admin"]] eq_refl eq_refl Hm).
    exists (mkUrlRule "/admin/*" ["admin"]).
    split; [left; reflexivity |]. split; [reflexivity |].
    exists "admin". split; left; reflexivity.
Defined.

(** ** Request processing *)

Lemma later_0 (w : World) : later 0 w = w.
Proof. destruct w; reflexivity. Qed.

Lemma later_later (j k : nat) (w : World) : later j (later k w) = later (j + k) w.
Proof. unfold later; simpl. f_equal. lia. Qed.

Lemma bind_return {A B : Type} (m : M A) (k : A -> M B) (w w' : World) (a : A) :
  m w = (Return a, w') -> bind m k w = k a w'.
Proof. intros H. unfold bind. rewrite H. reflexivity. Qed.

Lemma bind_throw {A B : Type} (m : M A) (k : A -> M B) (w w' : World) (e : Error) :
  m w = (Throw e, w') -> bind m k w = (Throw e, w').
Proof. intros H. unfold bind. rewrite H. reflexivity. Qed.

(** *** What leaves the JSON writes of the response alone *)

Lemma keeps_json_ret {A : Type} (a : A) : keeps_json (ret a).
Proof. intros w. reflexivity. Qed.

Lemma keeps_json_throw {A : Type} (e : Error) : keeps_json (@throw A e).
Proof. intros w. reflexivity. Qed.

Lemma keeps_json_bind {A B : Type} (m : M A) (k : A -> M B) :
  keeps_json m -> (forall a, keeps_json (k a)) -> keeps_json (bind m k).
Proof.
  intros Hm Hk w. unfold bind. specialize (Hm w).
  destruct (m w) as [[a | e] w1]; simpl in *.
  - rewrite (Hk a w1). exact Hm.
  - exact Hm.
Qed.

Lemma keeps_json_addHeader (name value : string) : keeps_json (addHeader name value).
Proof. intros w. reflexivity. Qed.

Lemma keeps_json_set_userData (u : option UData) : keeps_json (set_userData u).
Proof. intros w. reflexivity. Qed.

Create HintDb frame.

#[local] Hint Resolve keeps_json_ret keeps_json_throw keeps_json_bind
  keeps_json_addHeader keeps_json_set_userData : frame.

Section Processing.

Variable clock : nat -> Z.
Variable jwt_serialize : Token -> bool -> string.
Variable jwt_deserialize : string -> bool -> option string.
Variable JSON_parse : string -> option (option Token).
Variable rule_test : UrlRule -> string -> bool.
Variable unmatched : list UrlRule -> string -> option UrlRule.
Variable expires_date : Z -> string.

Hypothesis clock_monotone : monotone clock.

Lemma now_later (w : World) : now clock w = (Return (clock (tick w)), later 1 w).
Proof. reflexivity. Qed.

(** An expiry in the past is found dead, after at most one clock read. *)
Lemma isAccessTokenAlive_past (token : Token) (e : Z) (w : World) :
  tk_exp token = Some e ->
  e < clock (tick w) ->
  exists k, (k <= 1)%nat /\ isAccessTokenAlive clock token w = (Return false, later k w).
Proof.
  intros He Hpast. unfold isAccessTokenAlive. rewrite He.
  destruct (truthy_num (Some e)).
  - exists 1%nat. split; [lia |]. unfold bind. rewrite now_later. unfold ret.
    f_equal. f_equal. rewrite Z.geb_leb. apply Z.leb_gt. exact Hpast.
  - exists 0%nat. split; [lia |]. rewrite later_0. reflexivity.
Qed.

Lemma isRefreshTokenAlive_past (token : Token) (r : Z) (w : World) :
  tk_rtexp token = Some r ->
  r < clock (tick w) ->
  exists k, (k <= 1)%nat /\ isRefreshTokenAlive clock token w = (Return false, later k w).
Proof.
  intros Hr Hpast. unfold isRefreshTokenAlive. rewrite Hr.
  destruct (truthy_num (Some r)).
  - exists 1%nat. split; [lia |]. unfold bind. rewrite now_later. unfold ret.
    f_equal. f_equal. rewrite Z.geb_leb. apply Z.leb_gt. exact Hpast.
  - exists 0%nat. split; [lia |]. rewrite later_0. reflexivity.
Qed.

Lemma isRefreshTokenAlive_future (token : Token) (r : Z) (w : World) :
  tk_rtexp token = Some r ->
  r <> 0 ->
  clock (tick w) <= r ->
  isRefreshTokenAlive clock token w = (Return true, later 1 w).
Proof.
  intros Hr Hnz Hfut. unfold isRefreshTokenAlive. rewrite Hr.
  unfold truthy_num. destruct (Z.eqb_spec r 0) as [E | _]; [contradiction |].
  simpl. unfold bind. rewrite now_later. unfold ret.
  f_equal. f_equal. rewrite Z.geb_leb. apply Z.leb_le. exact Hfut.
Qed.

(** A dead refresh token makes [tryToRefreshToken] throw, leaving the
    request and the response as they were. *)
Lemma tryToRefreshToken_expired (cfg : Config) (params : gmap string string)
    (request : Request) (token : Token) (r : Z) (w : World) :
  tk_rtexp token = Some r ->
  r < clock (tick w) ->
  exists d k,
    tryToRefreshToken clock jwt_serialize expires_date cfg params request token w
    = (Throw (RefreshTokenExpired d), later k w).
Proof.
  intros Hr Hpast.
  destruct (isRefreshTokenAlive_past token r w Hr Hpast) as [k [_ Hk]].
  unfold tryToRefreshToken, bind at 1. rewrite Hk. simpl.
  unfold bind. rewrite now_later. unfold throw. rewrite later_later.
  eexists. eexists. reflexivity.
Qed.


Lemma keeps_json_now : keeps_json (now clock).
Proof. intros w. reflexivity. Qed.

#[local] Hint Resolve keeps_json_now : frame.

Lemma keeps_json_isAccessTokenAlive (token : Token) :
  keeps_json (isAccessTokenAlive clock token).
Proof.
  unfold isAccessTokenAlive.
  destruct (tk_exp token); [destruct (truthy_num _) |]; auto with frame.
Qed.

Lemma keeps_json_isRefreshTokenAlive (token : Token) :
  keeps_json (isRefreshTokenAlive clock token).
Proof.
  unfold isRefreshTokenAlive.
  destruct (tk_rtexp token); [destruct (truthy_num _) |]; auto with frame.
Qed.

Lemma keeps_json_readToken (request : Request) (name : string) :
  keeps_json (readToken jwt_deserialize JSON_parse request name).
Proof.
  unfold readToken.
  destruct (extractToken _ _) as [s |]; [| auto with frame].
  destruct (truthy_str _); [| auto with frame].
  destruct (jwt_deserialize s true) as [js |]; [| auto with frame].
  destruct (JSON_parse js); auto with frame.
Qed.

Lemma keeps_json_setTokenIntoHeader (cfg : Config) (params : gmap string string)
    (request : Request) (serializedToken : string) :
  keeps_json (setTokenIntoHeader clock expires_date cfg params request serializedToken).
Proof. unfold setTokenIntoHeader. auto with frame. Qed.

#[local] Hint Resolve keeps_json_isAccessTokenAlive keeps_json_isRefreshTokenAlive
  keeps_json_readToken keeps_json_setTokenIntoHeader : frame.

Lemma keeps_json_tryToRefreshToken (cfg : Config) (params : gmap string string)
    (request : Request) (token : Token) :
  keeps_json (tryToRefreshToken clock jwt_serialize expires_date cfg params request token).
Proof.
  unfold tryToRefreshToken.
  apply keeps_json_bind; [auto with frame |]. intros alive.
  destruct alive; simpl; [| auto with frame].
  apply keeps_json_bind.
  - destruct (authCanRefreshTokenFn cfg) as [f |]; [destruct (f token) |];
      simpl; auto with frame.
  - intros _. apply keeps_json_bind; [auto with frame |]. intros t1.
    destruct (tk_udata token); auto 6 with frame.
Qed.

#[local] Hint Resolve keeps_json_tryToRefreshToken : frame.

(** Token processing never writes a JSON body: only the [catch] block
    of the middleware does. *)
Lemma keeps_json_proccessAndValidateToken (cfg : Config)
    (params : gmap string string) (request : Request) :
  keeps_json
    (proccessAndValidateToken clock jwt_serialize jwt_deserialize JSON_parse
       rule_test unmatched expires_date cfg params request).
Proof.
  unfold proccessAndValidateToken.
  apply keeps_json_bind; [auto with frame |]. intros [token |]; [| auto with frame].
  apply keeps_json_bind; [auto with frame |]. intros alive.
  apply keeps_json_bind; [destruct alive; simpl; auto with frame |]. intros token'.
  destruct (negb _); auto with frame.
Qed.

Lemma isRefreshTokenAlive_total (token : Token) (w : World) :
  exists (b : bool) (k : nat),
    isRefreshTokenAlive clock token w = (Return b, later k w).
Proof.
  unfold isRefreshTokenAlive.
  destruct (tk_rtexp token) as [r |]; [destruct (truthy_num (Some r)) |].
  - eexists. exists 1%nat. reflexivity.
  - exists false, 0%nat. rewrite later_0. reflexivity.
  - exists false, 0%nat. rewrite later_0. reflexivity.
Qed.

(** Whenever [tryToRefreshToken] returns, it returns the token with
    [exp] and [rtexp] reassigned and has added one [Set-Cookie] header. *)
Lemma tryToRefreshToken_returns (cfg : Config) (params : gmap string string)
    (request : Request) (token token' : Token) (w w' : World) :
  tryToRefreshToken clock jwt_serialize expires_date cfg params request token w
  = (Return token', w') ->
  exists (ud : UData) (t1 t2 t3 : Z) (k : nat),
    tk_udata token = Some ud
    /\ token' = renewed cfg token ud t1 t2
    /\ w' = with_header
              ("Set-Cookie",
               cookieStr expires_date cfg params request (jwt_serialize token' true) t3)
              (later k w).
Proof.
  destruct (isRefreshTokenAlive_total token w) as [b [k Hk]].
  unfold tryToRefreshToken. rewrite (bind_return _ _ _ _ _ Hk).
  destruct b; simpl; [| intros H; discriminate H].
  assert (Hrest : forall w1 : World,
    bind (now clock)
      (fun t1 =>
         match tk_udata token with
         | Some ud =>
             bind (now clock)
               (fun t2 =>
                  bind
                    (setTokenIntoHeader clock expires_date cfg params request
                       (jwt_serialize
                          {| tk_exp := plus_num t1 (getAccessTokenTTL cfg (ud_app ud));
                             tk_iss := tk_iss token;
                             tk_rtexp := plus_num t2 (getRefreshTokenTTL cfg (ud_app ud));
                             tk_udata := tk_udata token |} true))
                    (fun _ =>
                       ret
                         {| tk_exp := plus_num t1 (getAccessTokenTTL cfg (ud_app ud));
                            tk_iss := tk_iss token;
                            tk_rtexp := plus_num t2 (getRefreshTokenTTL cfg (ud_app ud));
                            tk_udata := tk_udata token |}))
         | None => throw TypeError
         end) w1 = (Return token', w') ->
    exists (ud : UData) (t1 t2 t3 : Z),
      tk_udata token = Some ud
      /\ token' = renewed cfg token ud t1 t2
      /\ w' = with_header
                ("Set-Cookie",
                 cookieStr expires_date cfg params request (jwt_serialize token' true) t3)
                (later 3 w1)).
  { intros w1. unfold bind at 1. rewrite now_later.
    destruct (tk_udata token) as [ud |] eqn:Hud; [| intros H; discriminate H].
    intros H. inversion H; subst; clear H.
    exists ud, (clock (tick w1)), (clock (S (tick w1))), (clock (S (S (tick w1)))).
    unfold renewed. rewrite Hud. repeat split. }
  destruct (authCanRefreshTokenFn cfg) as [f |]; [destruct (f token) |]; simpl.
  - intros H. apply Hrest in H as [ud [t1 [t2 [t3 [Hud [Ht Hw]]]]]].
    rewrite later_later in Hw. exists ud, t1, t2, t3. eexists. eauto.
  - intros H. discriminate H.
  - intros H. apply Hrest in H as [ud [t1 [t2 [t3 [Hud [Ht Hw]]]]]].
    rewrite later_later in Hw. exists ud, t1, t2, t3. eexists. eauto.
Qed.

End Processing.

(** C8: a request whose URI matches the configured not-authenticated rule
    set passes at once: [middleware] returns true and the world (clock
    reads, [request.userData], response headers and bodies, log) is left
    exactly as it was, whatever the cookies of the request hold. *)
Theorem middleware_exempt_url
    (clock : nat -> Z) (jwt_serialize : Token -> bool -> string)
    (jwt_deserialize : string -> bool -> option string)
    (JSON_parse : string -> option (option Token))
    (rule_test : UrlRule -> string -> bool)
    (unmatched : list UrlRule -> string -> option UrlRule) (expires_date : Z -> string)
    (cfg : Config) (params : gmap string string) (request : Request)
    (rules : list UrlRule) (w : World) :
  authNotAuthenticatedUrls cfg = Some rules ->
  is_some (urlMatches rule_test unmatched rules (requestURI request) None) = true ->
  middleware clock jwt_serialize jwt_deserialize JSON_parse rule_test unmatched expires_date
    cfg params request w
  = (Return true, w).
Proof.
  intros Hrules Hmatch. unfold middleware, isAuthenticatedUrl.
  rewrite Hrules, Hmatch. reflexivity.
Qed.

(** [/public/health] with [/public/*] exempt: an expired token and no cookie
    at all pass alike. *)
Lemma middleware_exempt_url_demo :
  middleware Demo.clock Demo.serialize Demo.deserialize Demo.parse Demo.rule_test Demo.unmatched
    Demo.expires_date Demo.with_public ∅ (Demo.get "/public/health" "dead") Demo.w0
  = (Return true, Demo.w0)
  /\ middleware Demo.clock Demo.serialize Demo.deserialize Demo.parse Demo.rule_test Demo.unmatched
       Demo.expires_date Demo.with_public ∅
       (mkRequest "/public/health" ∅ NoCookies) Demo.w0
     = (Return true, Demo.w0).
Proof.
  split.
  - apply (middleware_exempt_url Demo.clock Demo.serialize Demo.deserialize Demo.parse
             Demo.rule_test Demo.unmatched Demo.expires_date Demo.with_public ∅
             (Demo.get "/public/health" "dead") [mkUrlRule "/public/*" []] Demo.w0);
      reflexivity.
  - apply (middleware_exempt_url Demo.clock Demo.serialize Demo.deserialize Demo.parse
             Demo.rule_test Demo.unmatched Demo.expires_date Demo.with_public ∅
             (mkRequest "/public/health" ∅ NoCookies) [mkUrlRule "/public/*" []] Demo.w0);
      reflexivity.
Defined.

(** C9: on a URL that requires authentication, whatever error token
    processing throws (token not found, token that does not deserialize,
    refresh token expired, refresh denied, not allowed), [middleware] logs
    it, writes the one rejection [{message, status: 401}] with HTTP status
    401 and returns false; when processing returns, and on an exempt URL,
    [middleware] returns true and no JSON body has been written. *)
Theorem middleware_rejects_or_passes
    (clock : nat -> Z) (jwt_serialize : Token -> bool -> string)
    (jwt_deserialize : string -> bool -> option string)
    (JSON_parse : string -> option (option Token))
    (rule_test : UrlRule -> string -> bool)
    (unmatched : list UrlRule -> string -> option UrlRule) (expires_date : Z -> string)
    (cfg : Config) (params : gmap string string) (request : Request) (w : World) :
  if isAuthenticatedUrl rule_test unmatched cfg (requestURI request) then
    match proccessAndValidateToken clock jwt_serialize jwt_deserialize JSON_parse
            rule_test unmatched expires_date cfg params request w with
    | (Return _, w1) =>
        middleware clock jwt_serialize jwt_deserialize JSON_parse rule_test unmatched
          expires_date cfg params request w = (Return true, w1)
        /\ resp_json (response w1) = resp_json (response w)
    | (Throw e, w1) =>
        middleware clock jwt_serialize jwt_deserialize JSON_parse rule_test unmatched
          expires_date cfg params request w = (Return false, rejected e w1)
        /\ resp_json (response (rejected e w1))
           = resp_json (response w) ++ [(rejection, 401)]
        /\ message rejection = "Authentication Error: Not Authenticated"
        /\ status rejection = 401
    end
  else
    middleware clock jwt_serialize jwt_deserialize JSON_parse rule_test unmatched
      expires_date cfg params request w = (Return true, w).
Proof.
  unfold middleware.
  destruct (isAuthenticatedUrl rule_test unmatched cfg (requestURI request)); simpl;
    [| reflexivity].
  pose proof (keeps_json_proccessAndValidateToken clock jwt_serialize jwt_deserialize
                JSON_parse rule_test unmatched expires_date cfg params request w) as Hjson.
  unfold try_catch.
  destruct (proccessAndValidateToken clock jwt_serialize jwt_deserialize JSON_parse
              rule_test unmatched expires_date cfg params request w) as [[u | e] w1];
    simpl in Hjson.
  - split; [reflexivity | exact Hjson].
  - split; [reflexivity |].
    split; [simpl; rewrite Hjson; reflexivity |]. split; reflexivity.
Qed.

(** C6: a token whose [exp] and [rtexp] are both in the past makes token
    processing throw the refresh-expired authentication error; on a URL
    that requires authentication the middleware rejects the request, and
    on no URL does it attach [request.userData]. *)
Theorem expired_token_rejected
    (clock : nat -> Z) (jwt_serialize : Token -> bool -> string)
    (jwt_deserialize : string -> bool -> option string)
    (JSON_parse : string -> option (option Token))
    (rule_test : UrlRule -> string -> bool)
    (unmatched : list UrlRule -> string -> option UrlRule) (expires_date : Z -> string)
    (cfg : Config) (params : gmap string string) (request : Request)
    (token : Token) (e r : Z) (w : World) :
  monotone clock ->
  readToken jwt_deserialize JSON_parse request (getTokenName params request) w
  = (Return (Some token), w) ->
  tk_exp token = Some e ->
  e < clock (tick w) ->
  tk_rtexp token = Some r ->
  r < clock (tick w) ->
  exists (d : Z) (k : nat),
    proccessAndValidateToken clock jwt_serialize jwt_deserialize JSON_parse
      rule_test unmatched expires_date cfg params request w
    = (Throw (RefreshTokenExpired d), later k w)
    /\ (isAuthenticatedUrl rule_test unmatched cfg (requestURI request) = true ->
        middleware clock jwt_serialize jwt_deserialize JSON_parse rule_test unmatched
          expires_date cfg params request w
        = (Return false, rejected (RefreshTokenExpired d) (later k w)))
    /\ userData
         (snd (middleware clock jwt_serialize jwt_deserialize JSON_parse rule_test unmatched
                 expires_date cfg params request w))
       = userData w.
Proof.
  intros Hmono Hread He Hepast Hr Hrpast.
  destruct (isAccessTokenAlive_past clock token e w He Hepast) as [k1 [_ Hk1]].
  assert (Hrpast' : r < clock (tick (later k1 w))).
  { simpl. pose proof (Hmono (tick w) (k1 + tick w)%nat ltac:(lia)). lia. }
  destruct (tryToRefreshToken_expired clock jwt_serialize expires_date cfg params
              request token r (later k1 w) Hr Hrpast') as [d [k2 Hk2]].
  rewrite later_later in Hk2.
  assert (Hproc :
    proccessAndValidateToken clock jwt_serialize jwt_deserialize JSON_parse
      rule_test unmatched expires_date cfg params request w
    = (Throw (RefreshTokenExpired d), later (k2 + k1) w)).
  { unfold proccessAndValidateToken.
    rewrite (bind_return _ _ _ _ _ Hread).
    rewrite (bind_return _ _ _ _ _ Hk1). simpl.
    rewrite (bind_throw _ _ _ _ _ Hk2). reflexivity. }
  exists d, (k2 + k1)%nat. split; [exact Hproc |].
  unfold middleware, try_catch.
  destruct (isAuthenticatedUrl rule_test unmatched cfg (requestURI request)); simpl.
  - rewrite Hproc. split; reflexivity.
  - split; [discriminate | reflexivity].
Qed.

(** The token [{exp: 998000, rtexp: 999000}] presented at time 1000000. *)
Lemma expired_token_rejected_demo :
  exists (d : Z) (k : nat),
    proccessAndValidateToken Demo.clock Demo.serialize Demo.deserialize Demo.parse
      Demo.rule_test Demo.unmatched Demo.expires_date Demo.admin_only ∅
      (Demo.get "/admin/reports" "dead") Demo.w0
    = (Throw (RefreshTokenExpired d), later k Demo.w0)
    /\ (isAuthenticatedUrl Demo.rule_test Demo.unmatched Demo.admin_only
          (requestURI (Demo.get "/admin/reports" "dead")) = true ->
        middleware Demo.clock Demo.serialize Demo.deserialize Demo.parse Demo.rule_test Demo.unmatched
          Demo.expires_date Demo.admin_only ∅ (Demo.get "/admin/reports" "dead") Demo.w0
        = (Return false, rejected (RefreshTokenExpired d) (later k Demo.w0)))
    /\ userData
         (snd (middleware Demo.clock Demo.serialize Demo.deserialize Demo.parse
                 Demo.rule_test Demo.unmatched Demo.expires_date Demo.admin_only ∅
                 (Demo.get "/admin/reports" "dead") Demo.w0))
       = userData Demo.w0.
Proof.
  apply (expired_token_rejected Demo.clock Demo.serialize Demo.deserialize Demo.parse
           Demo.rule_test Demo.unmatched Demo.expires_date Demo.admin_only ∅
           (Demo.get "/admin/reports" "dead") Demo.dead 998000 999000 Demo.w0).
  - exact demo_clock_monotone.
  - reflexivity.
  - reflexivity.
  - reflexivity.
  - reflexivity.
  - reflexivity.
Defined.




(** C10: when [tryToRefreshToken] renews a token, the token it returns and
    serializes into the [Set-Cookie] header has the [iss] and the [udata]
    (app, sub, data) of the original: only [exp] and [rtexp] are
    reassigned. *)
Theorem tryToRefreshToken_keeps_identity
    (clock : nat -> Z) (jwt_serialize : Token -> bool -> string)
    (expires_date : Z -> string)
    (cfg : Config) (params : gmap string string) (request : Request)
    (token token' : Token) (w w' : World) :
  tryToRefreshToken clock jwt_serialize expires_date cfg params request token w
  = (Return token', w') ->
  tk_iss token' = tk_iss token
  /\ tk_udata token' = tk_udata token
  /\ exists t3 : Z,
       resp_headers (response w')
       = resp_headers (response w)
         ++ [("Set-Cookie",
              cookieStr expires_date cfg params request (jwt_serialize token' true) t3)].
Proof.
  intros H.
  apply tryToRefreshToken_returns in H as [ud [t1 [t2 [t3 [k [Hud [Ht Hw]]]]]]].
  subst w'. rewrite Ht at 1 2.
  split; [reflexivity |]. split; [reflexivity |].
  exists t3. reflexivity.
Qed.

(** The renewal of [{exp: 999000, rtexp: 2000000, iss: 'app1'}] at time
    1000000. *)
Lemma tryToRefreshToken_keeps_identity_demo :
  tk_iss (renewed initial Demo.stale Demo.admin 1000001 1000002) = Some "app1"
  /\ tk_udata (renewed initial Demo.stale Demo.admin 1000001 1000002) = Some Demo.admin
  /\ exists t3 : Z,
       resp_headers
         (response
            (with_header
               ("Set-Cookie",
                cookieStr Demo.expires_date initial ∅ (Demo.get "/home" "stale")
                  (Demo.serialize
                     (renewed initial Demo.stale Demo.admin 1000001 1000002) true)
                  1000003)
               (later 4 Demo.w0)))
       = resp_headers (response Demo.w0)
         ++ [("Set-Cookie",
              cookieStr Demo.expires_date initial ∅ (Demo.get "/home" "stale")
                (Demo.serialize
                   (renewed initial Demo.stale Demo.admin 1000001 1000002) true)
                t3)].
Proof.
  apply (tryToRefreshToken_keeps_identity Demo.clock Demo.serialize Demo.expires_date
           initial ∅ (Demo.get "/home" "stale") Demo.stale
           (renewed initial Demo.stale Demo.admin 1000001 1000002) Demo.w0
           (with_header
              ("Set-Cookie",
               cookieStr Demo.expires_date initial ∅ (Demo.get "/home" "stale")
                 (Demo.serialize
                    (renewed initial Demo.stale Demo.admin 1000001 1000002) true)
                 1000003)
              (later 4 Demo.w0))).
  reflexivity.
Defined.

(** ** Scenarios *)

(** Default TTLs: a token created at [t0] expires at [t0 + 300000] and can
    be refreshed until [t0 + 28800000]. *)
Example scenario_default_ttls (t0 : Z) :
  tk_exp (authenticationPayload initial t0 t0 "42" "app1" None) = Some (t0 + 300000)
  /\ tk_rtexp (authenticationPayload initial t0 t0 "42" "app1" None)
     = Some (t0 + 28800000).
Proof. split; reflexivity. Qed.

(** A request without a cookie is rejected: token not found. *)
Example scenario_no_cookie :
  middleware Demo.clock Demo.serialize Demo.deserialize Demo.parse Demo.rule_test Demo.unmatched
    Demo.expires_date initial ∅ (mkRequest "/home" ∅ NoCookies) Demo.w0
  = (Return false, rejected TokenNotFound Demo.w0).
Proof. reflexivity. Qed.

(** After [destroyAuthentication] the cookie holds [undefined], which does
    not deserialize: the next request is rejected. *)
Example scenario_destroyed_cookie :
  middleware Demo.clock Demo.serialize Demo.deserialize Demo.parse Demo.rule_test Demo.unmatched
    Demo.expires_date initial ∅ (Demo.get "/home" "undefined") Demo.w0
  = (Return false, rejected DeserializeError Demo.w0).
Proof. reflexivity. Qed.

(** A refresh that [canRefreshTokenFn] denies is rejected as well. *)
Example scenario_refresh_denied :
  middleware Demo.clock Demo.serialize Demo.deserialize Demo.parse Demo.rule_test Demo.unmatched
    Demo.expires_date (canRefreshTokenFn (Some (fun _ => false)) initial) ∅
    (Demo.get "/home" "stale") Demo.w0
  = (Return false, rejected (RefreshDenied 1000002) (later 3 Demo.w0)).
Proof. reflexivity. Qed.

(** The token comes from an array of cookies as well as from an object. *)
Example scenario_cookie_array :
  extractToken (mkRequest "/home" ∅ (CookieList [("lang", "pt"); ("tkn", "stale")])) "tkn"
  = Some "stale".
Proof. reflexivity. Qed.

(** The cookie string of a secure deployment. *)
Example scenario_cookie_string :
  cookieStr Demo.expires_date (useSecureAuthentication true initial) ∅
    (Demo.get "/login" "none") "abc" 0
  = "tkn=abc; HttpOnly; path=/; secure;; expires=Mon, 01 Jan 2035 00:00:00 GMT".
Proof. reflexivity. Qed.

(** * Further properties *)

(** ** Configuration of the TTLs *)

(** X1: a duration other than [0] that is set for an app other than
    [__proto__] is what the getter returns for that app; setting the TTL
    of an app other than [default] changes the answer for no other app,
    and the access and refresh stores do not touch each other. *)
Theorem set_app_ttl_then_get (cfg : Config) (app : string) (ttl : Z) :
  ttl <> 0 ->
  app <> "__proto__" ->
  getAccessTokenTTL (accessTokenTTL (TwoArgs app (Some ttl)) cfg) app = Some ttl
  /\ getRefreshTokenTTL (refreshTokenTTL (TwoArgs app (Some ttl)) cfg) app = Some ttl
  /\ (forall app', app <> "default" -> app' <> app ->
        getAccessTokenTTL (accessTokenTTL (TwoArgs app (Some ttl)) cfg) app'
        = getAccessTokenTTL cfg app'
        /\ getRefreshTokenTTL (refreshTokenTTL (TwoArgs app (Some ttl)) cfg) app'
           = getRefreshTokenTTL cfg app')
  /\ (forall app',
        getRefreshTokenTTL (accessTokenTTL (TwoArgs app (Some ttl)) cfg) app'
        = getRefreshTokenTTL cfg app'
        /\ getAccessTokenTTL (refreshTokenTTL (TwoArgs app (Some ttl)) cfg) app'
           = getAccessTokenTTL cfg app').
Proof.
  intros Hnz Hproto.
  assert (Hset : forall map : gmap string (option Z),
            number_of
              (or_prop (get_prop (set_prop map app (Some ttl)) app)
                 (get_prop (set_prop map app (Some ttl)) "default"))
            = Some ttl).
  { intros map. rewrite (get_prop_set_eq map app (Some ttl) Hproto).
    rewrite or_prop_truthy; [reflexivity |]. simpl.
    destruct (Z.eqb_spec ttl 0) as [E | _]; [contradiction | reflexivity]. }
  unfold getAccessTokenTTL, getRefreshTokenTTL; simpl.
  split; [apply Hset |]. split; [apply Hset |]. split.
  - intros app' Hdef Hne.
    rewrite !(get_prop_set_ne _ app app') by exact Hne.
    rewrite !(get_prop_set_ne _ app "default") by congruence.
    split; reflexivity.
  - intros app'. split; reflexivity.
Qed.

(** [auth.accessTokenTTL('app1', 600000)] on a fresh [Auth]. *)
Lemma set_app_ttl_then_get_demo :
  getAccessTokenTTL (accessTokenTTL (TwoArgs "app1" (Some 600000)) initial) "app1"
  = Some 600000
  /\ getAccessTokenTTL (accessTokenTTL (TwoArgs "app1" (Some 600000)) initial) "app2"
     = Some 300000.
Proof.
  destruct (set_app_ttl_then_get initial "app1" 600000 ltac:(discriminate)
              ltac:(discriminate))
    as [Hget [_ [Hother _]]].
  split; [exact Hget |].
  destruct (Hother "app2" ltac:(discriminate) ltac:(discriminate)) as [Ha _].
  rewrite Ha. reflexivity.
Defined.

(** X2: the one-argument call with a number sets the default: afterwards
    every app for which [map[app]] is falsy (an own entry that is [0] or
    [undefined], or no own entry under a name that is not inherited from
    [Object.prototype]) gets the new duration, even [0] itself, and an app
    other than [default] with an own non-zero entry keeps it. *)
Theorem set_default_ttl_then_get (cfg : Config) (ttl : Z) (app : string) :
  (truthy_prop (get_prop (authAccessTokenTTL cfg) app) = false ->
   getAccessTokenTTL (accessTokenTTL (OneArg (Some ttl)) cfg) app = Some ttl)
  /\ (truthy_prop (get_prop (authRefreshTokenTTL cfg) app) = false ->
      getRefreshTokenTTL (refreshTokenTTL (OneArg (Some ttl)) cfg) app = Some ttl)
  /\ (forall v, app <> "default" -> v <> 0 ->
      authAccessTokenTTL cfg !! app = Some (Some v) ->
      getAccessTokenTTL (accessTokenTTL (OneArg (Some ttl)) cfg) app = Some v)
  /\ (forall v, app <> "default" -> v <> 0 ->
      authRefreshTokenTTL cfg !! app = Some (Some v) ->
      getRefreshTokenTTL (refreshTokenTTL (OneArg (Some ttl)) cfg) app = Some v).
Proof.
  assert (Hdef : forall map : gmap string (option Z),
            get_prop (set_prop map "default" (Some ttl)) "default" = PNumber ttl).
  { intros map. apply (get_prop_set_eq map "default" (Some ttl)). discriminate. }
  assert (Hfalsy : forall map : gmap string (option Z),
            truthy_prop (get_prop map app) = false ->
            number_of
              (or_prop (get_prop (set_prop map "default" (Some ttl)) app)
                 (get_prop (set_prop map "default" (Some ttl)) "default"))
            = Some ttl).
  { intros map Hf. rewrite Hdef.
    destruct (decide (app = "default")) as [-> | Hne].
    - rewrite Hdef, or_prop_same. reflexivity.
    - rewrite (get_prop_set_ne map "default" app (Some ttl) Hne).
      rewrite (or_prop_falsy _ _ Hf). reflexivity. }
  assert (Htruthy : forall (map : gmap string (option Z)) (v : Z),
            app <> "default" -> v <> 0 -> map !! app = Some (Some v) ->
            number_of
              (or_prop (get_prop (set_prop map "default" (Some ttl)) app)
                 (get_prop (set_prop map "default" (Some ttl)) "default"))
            = Some v).
  { intros map v Hne Hv Hown.
    rewrite (get_prop_set_ne map "default" app (Some ttl) Hne).
    assert (Hp : get_prop map app = PNumber v)
      by (unfold get_prop; rewrite Hown; reflexivity).
    rewrite Hp, or_prop_truthy; [reflexivity |]. simpl.
    destruct (Z.eqb_spec v 0) as [E | _]; [contradiction | reflexivity]. }
  unfold getAccessTokenTTL, getRefreshTokenTTL; simpl.
  split; [apply Hfalsy |]. split; [apply Hfalsy |].
  split; intros v; apply Htruthy.
Qed.

(** ** Configuration of the exempt URLs *)

Lemma exempt_by_app (rule_test : UrlRule -> string -> bool) (l1 l2 : list string)
    (uri : string) :
  exempt_by rule_test (l1 ++ l2) uri
  = exempt_by rule_test l1 uri || exempt_by rule_test l2 uri.
Proof. unfold exempt_by. apply existsb_app. Qed.

Lemma urlMatches_any (rule_test : UrlRule -> string -> bool)
    (unmatched : list UrlRule -> string -> option UrlRule) (rules : list UrlRule)
    (uri : string) :
  is_some (urlMatches rule_test unmatched rules uri None)
  = existsb (fun r => rule_test r uri) rules.
Proof.
  unfold urlMatches. apply is_some_find.
Qed.

Lemma urlMatches_array (rule_test : UrlRule -> string -> bool)
    (unmatched : list UrlRule -> string -> option UrlRule) (l : list string)
    (uri : string) :
  is_some (urlMatches rule_test unmatched (buildUrlRules_array l) uri None)
  = exempt_by rule_test l uri.
Proof.
  rewrite urlMatches_any. unfold buildUrlRules_array, buildUrlRules, exempt_by.
  induction l as [| u l IH]; simpl; [reflexivity |]. rewrite IH. reflexivity.
Qed.

(** X4: [notAuthenticatedUrls] replaces the exemption set: with a URL or an
    array of URLs, a URI is afterwards exempt exactly when it matches one of
    the patterns just given, whatever was configured before; with a missing
    argument or the empty string the configuration is left as it was. *)
Theorem notAuthenticatedUrls_replaces
    (rule_test : UrlRule -> string -> bool)
    (unmatched : list UrlRule -> string -> option UrlRule) (cfg : Config) (urls : UrlsArg)
    (uri : string) :
  match urls_array urls with
  | Some l =>
      isAuthenticatedUrl rule_test unmatched (notAuthenticatedUrls urls cfg) uri
      = negb (exempt_by rule_test l uri)
  | None => notAuthenticatedUrls urls cfg = cfg
  end.
Proof.
  unfold notAuthenticatedUrls.
  destruct (urls_array urls) as [l |]; [| reflexivity].
  unfold isAuthenticatedUrl.
  cbn [authNotAuthenticatedUrls set_authNotAuthenticatedUrls].
  rewrite urlMatches_array. reflexivity.
Qed.

(** X5: when [addNotAuthenticatedUrls] succeeds with a URL or an array of
    URLs, a URI is exempt afterwards exactly when it was exempt before or
    matches one of the added patterns; the authorization rules are left as
    they were. *)
Theorem addNotAuthenticatedUrls_adds
    (rule_test : UrlRule -> string -> bool)
    (unmatched : list UrlRule -> string -> option UrlRule) (cfg cfg' : Config) (urls : UrlsArg)
    (l : list string) (uri : string) :
  urls_array urls = Some l ->
  addNotAuthenticatedUrls urls cfg = Some cfg' ->
  isAuthenticatedUrl rule_test unmatched cfg' uri
  = isAuthenticatedUrl rule_test unmatched cfg uri && negb (exempt_by rule_test l uri)
  /\ authAuthorizations cfg' = authAuthorizations cfg.
Proof.
  intros Hl Hadd. unfold addNotAuthenticatedUrls in Hadd. rewrite Hl in Hadd.
  destruct (authNotAuthenticatedUrls cfg) as [old |] eqn:Hold; [| discriminate Hadd].
  inversion Hadd; subst cfg'; clear Hadd.
  split; [| reflexivity].
  unfold isAuthenticatedUrl.
  cbn [authNotAuthenticatedUrls set_authNotAuthenticatedUrls]. rewrite Hold.
  rewrite !urlMatches_any. rewrite existsb_app, negb_orb.
  rewrite <- (urlMatches_any rule_test unmatched (buildUrlRules_array l)), urlMatches_array.
  reflexivity.
Qed.

(** [/public/*] exempt, then [/health] added. *)
Lemma addNotAuthenticatedUrls_adds_demo :
  isAuthenticatedUrl Demo.rule_test Demo.unmatched
    (set_authNotAuthenticatedUrls
       (Some (buildUrlRules_array ["/public/*"] ++ buildUrlRules_array ["/health"]))
       Demo.with_public)
    "/health"
  = isAuthenticatedUrl Demo.rule_test Demo.unmatched Demo.with_public "/health"
    && negb (exempt_by Demo.rule_test ["/health"] "/health")
  /\ authAuthorizations
       (set_authNotAuthenticatedUrls
          (Some (buildUrlRules_array ["/public/*"] ++ buildUrlRules_array ["/health"]))
          Demo.with_public)
     = authAuthorizations Demo.with_public.
Proof.
  apply (addNotAuthenticatedUrls_adds Demo.rule_test Demo.unmatched Demo.with_public
           (set_authNotAuthenticatedUrls
              (Some (buildUrlRules_array ["/public/*"] ++ buildUrlRules_array ["/health"]))
              Demo.with_public)
           (UrlsString "/health") ["/health"] "/health").
  - reflexivity.
  - reflexivity.
Defined.

(** X6: [addNotAuthenticatedUrls] throws exactly when it is given a URL or
    an array of URLs while no exemption set has been configured (as on a
    fresh [Auth]); after [notAuthenticatedUrls] with such an argument, and
    after [clearNotAuthenticatedUrls], it never throws. *)
Theorem addNotAuthenticatedUrls_throws (cfg : Config) (urls urls' : UrlsArg) :
  (addNotAuthenticatedUrls urls cfg = None
   <-> authNotAuthenticatedUrls cfg = None /\ urls_array urls <> None)
  /\ addNotAuthenticatedUrls urls (clearNotAuthenticatedUrls cfg) <> None
  /\ (urls_array urls' <> None ->
      addNotAuthenticatedUrls urls (notAuthenticatedUrls urls' cfg) <> None).
Proof.
  split; [| split].
  - unfold addNotAuthenticatedUrls.
    destruct (urls_array urls) as [l |];
      destruct (authNotAuthenticatedUrls cfg) as [old |]; split;
      try discriminate; try (intros [H1 H2]; congruence).
    intros _. split; [reflexivity | discriminate].
  - unfold addNotAuthenticatedUrls, clearNotAuthenticatedUrls; simpl.
    destruct (urls_array urls); discriminate.
  - intros Hl. unfold addNotAuthenticatedUrls, notAuthenticatedUrls.
    destruct (urls_array urls') as [l' |]; [| congruence]. simpl.
    destruct (urls_array urls); discriminate.
Qed.

(** ** Authorization without authentication *)

(** X7: [validateOnlyAuthorization] reads no cookie and no clock: when
    [isAuthorized] holds it returns true and changes nothing; otherwise it
    logs the authorization error, writes the same 401 rejection as the
    middleware and returns false. *)
Theorem validateOnlyAuthorization_outcome
    (rule_test : UrlRule -> string -> bool)
    (unmatched : list UrlRule -> string -> option UrlRule) (cfg : Config)
    (params : gmap string string) (request : Request) (userData : option UserData)
    (w : World) :
  validateOnlyAuthorization rule_test unmatched cfg params request userData w
  = if isAuthorized rule_test unmatched cfg request userData
    then (Return true, w)
    else (Return false, rejected NotAllowed w).
Proof.
  unfold validateOnlyAuthorization, try_catch.
  destruct (isAuthorized rule_test unmatched cfg request userData); reflexivity.
Qed.

(** ** The cookie *)

Lemma space_after_semicolons_head (c : ascii) (rest : string) :
  exists tail, space_after_semicolons (String c rest) = String c tail.
Proof.
  simpl. destruct (Ascii.eqb c ";"%char).
  - destruct rest as [| d rest']; [eexists; reflexivity |].
    destruct (is_word_char d); eexists; reflexivity.
  - eexists; reflexivity.
Qed.

Lemma space_after_semicolons_plain (a b : string) :
  no_semicolon a = true ->
  space_after_semicolons (a +:+ b) = a +:+ space_after_semicolons b.
Proof.
  induction a as [| c a IH]; intros Ha; [reflexivity |].
  simpl in Ha. apply andb_true_iff in Ha as [Hc Ha].
  apply negb_true_iff in Hc.
  change (String c a +:+ b) with (String c (a +:+ b)).
  change (String c a +:+ space_after_semicolons b)
    with (String c (a +:+ space_after_semicolons b)).
  rewrite <- (IH Ha). simpl. rewrite Hc. reflexivity.
Qed.

Lemma space_after_semicolons_none (a : string) :
  no_semicolon a = true -> space_after_semicolons a = a.
Proof.
  induction a as [| c a IH]; intros Ha; [reflexivity |].
  simpl in Ha. apply andb_true_iff in Ha as [Hc Ha].
  apply negb_true_iff in Hc. simpl. rewrite Hc, (IH Ha). reflexivity.
Qed.

(** X8: when the cookie name, the serialized token and the date hold no
    semicolon, the [Set-Cookie] value is the name, [=], the token, then
    the attributes [HttpOnly] and [path=/], the attribute [secure] exactly
    when secure authentication is switched on, and the expiry date, each
    attribute separated by a semicolon and a space. *)
Theorem cookieStr_format
    (expires_date : Z -> string) (cfg : Config) (params : gmap string string)
    (request : Request) (serializedToken : string) (t : Z) :
  no_semicolon (getTokenName params request) = true ->
  no_semicolon serializedToken = true ->
  no_semicolon (expires_date t) = true ->
  cookieStr expires_date cfg params request serializedToken t
  = getTokenName params request +:+ "=" +:+ serializedToken
    +:+ "; HttpOnly; path=/;"
    +:+ (if authUseSecureAuthentication cfg then " secure;" else EmptyString)
    +:+ "; expires=" +:+ expires_date t.
Proof.
  intros Hname Htoken Hdate. unfold cookieStr.
  rewrite (space_after_semicolons_plain _ _ Hname).
  change ("=" +:+ serializedToken +:+ ";HttpOnly;path=/;"
          +:+ (if authUseSecureAuthentication cfg then "secure;" else EmptyString)
          +:+ ";expires=" +:+ expires_date t)
    with (String "="%char
            (serializedToken +:+ ";HttpOnly;path=/;"
             +:+ (if authUseSecureAuthentication cfg then "secure;" else EmptyString)
             +:+ ";expires=" +:+ expires_date t)).
  assert (Heq : forall rest : string,
            space_after_semicolons (String "="%char rest)
            = String "="%char (space_after_semicolons rest)) by reflexivity.
  rewrite Heq. rewrite (space_after_semicolons_plain _ _ Htoken).
  do 3 f_equal.
  destruct (authUseSecureAuthentication cfg); cbv [String.append]; simpl;
    rewrite (space_after_semicolons_none _ Hdate); reflexivity.
Qed.

(** The cookie of a secure deployment, token [abc]. *)
Lemma cookieStr_format_demo :
  cookieStr Demo.expires_date (useSecureAuthentication true initial) ∅
    (Demo.get "/login" "none") "abc" 0
  = getTokenName ∅ (Demo.get "/login" "none") +:+ "=" +:+ "abc"
    +:+ "; HttpOnly; path=/;"
    +:+ (if authUseSecureAuthentication (useSecureAuthentication true initial)
         then " secure;" else EmptyString)
    +:+ "; expires=" +:+ Demo.expires_date 0.
Proof.
  apply (cookieStr_format Demo.expires_date (useSecureAuthentication true initial) ∅
           (Demo.get "/login" "none") "abc" 0); reflexivity.
Defined.

Lemma space_after_semicolons_cons (c : ascii) (rest : string) :
  space_after_semicolons (String c rest)
  = if Ascii.eqb c ";"%char then
      match rest with
      | String d _ =>
          if is_word_char d
          then String c (String " "%char (space_after_semicolons rest))
          else String c (space_after_semicolons rest)
      | EmptyString => String c EmptyString
      end
    else String c (space_after_semicolons rest).
Proof. reflexivity. Qed.

Lemma tight_semicolon_cons (c : ascii) (rest : string) :
  tight_semicolon (String c rest)
  = (Ascii.eqb c ";"%char
     && match rest with
        | String d _ => is_word_char d
        | EmptyString => false
        end)
    || tight_semicolon rest.
Proof. reflexivity. Qed.

(** X9: in the string that [setTokenIntoHeader] sends, no semicolon is
    directly followed by a word character, whatever the cookie name, the
    token and the date are. *)
Theorem cookieStr_semicolons_spaced
    (expires_date : Z -> string) (cfg : Config) (params : gmap string string)
    (request : Request) (serializedToken : string) (t : Z) :
  tight_semicolon (cookieStr expires_date cfg params request serializedToken t)
  = false.
Proof.
  unfold cookieStr.
  generalize (getTokenName params request +:+ "=" +:+ serializedToken
              +:+ ";HttpOnly;path=/;"
              +:+ (if authUseSecureAuthentication cfg then "secure;" else EmptyString)
              +:+ ";expires=" +:+ expires_date t).
  intros s. induction s as [| c rest IH]; [reflexivity |].
  rewrite space_after_semicolons_cons.
  destruct (Ascii.eqb c ";"%char) eqn:Hc.
  - destruct rest as [| d rest'].
    + rewrite tight_semicolon_cons, andb_false_r. reflexivity.
    + destruct (is_word_char d) eqn:Hd.
      * rewrite tight_semicolon_cons, Hc.
        change (is_word_char " "%char) with false. cbn [andb orb].
        rewrite tight_semicolon_cons.
        change (Ascii.eqb " "%char ";"%char) with false. cbn [andb orb].
        exact IH.
      * destruct (space_after_semicolons_head d rest') as [tail Htail].
        rewrite Htail in IH |- *.
        rewrite tight_semicolon_cons, Hc, Hd. cbn [andb orb]. exact IH.
  - rewrite tight_semicolon_cons, Hc. cbn [andb orb]. exact IH.
Qed.

(** ** Finding the token *)

Lemma or_else_nonempty (a : option string) (b : string) :
  b <> EmptyString -> or_else a b <> EmptyString.
Proof.
  intros Hb. unfold or_else. destruct a as [s |]; [| exact Hb].
  simpl. destruct (String.eqb_spec s EmptyString) as [-> | Hs]; simpl; assumption.
Qed.

Lemma getTokenName_nonempty (params : gmap string string) (request : Request) :
  getTokenName params request <> EmptyString.
Proof.
  unfold getTokenName. apply or_else_nonempty, or_else_nonempty. discriminate.
Qed.

Lemma or_else_self (s : string) :
  s <> EmptyString -> or_else (Some s) "tkn" = s.
Proof.
  intros Hs. unfold or_else. simpl.
  destruct (String.eqb_spec s EmptyString) as [E | _]; [contradiction | reflexivity].
Qed.

(** X10: the cookie name is never empty: it is [params.tknAppName] when
    that is a non-empty string, else the header [tknAppName] when that is
    a non-empty string, else [tkn]. *)
Theorem getTokenName_precedence (params : gmap string string) (request : Request) :
  getTokenName params request <> EmptyString
  /\ (truthy_str (params !! "tknAppName") = true ->
      Some (getTokenName params request) = params !! "tknAppName")
  /\ (truthy_str (params !! "tknAppName") = false ->
      truthy_str (headers request !! "tknAppName") = true ->
      Some (getTokenName params request) = headers request !! "tknAppName")
  /\ (truthy_str (params !! "tknAppName") = false ->
      truthy_str (headers request !! "tknAppName") = false ->
      getTokenName params request = "tkn").
Proof.
  split; [apply getTokenName_nonempty |].
  unfold getTokenName, or_else, truthy_str.
  destruct (params !! "tknAppName") as [p |];
    destruct (headers request !! "tknAppName") as [h |];
    try destruct (String.eqb p EmptyString);
    try destruct (String.eqb h EmptyString);
    simpl; (split; [| split]); intros; first [reflexivity | congruence].
Qed.

(** ** Token processing *)

Lemma readToken_pure (jwt_deserialize : string -> bool -> option string)
    (JSON_parse : string -> option (option Token)) (request : Request)
    (name : string) (w : World) :
  snd (readToken jwt_deserialize JSON_parse request name w) = w.
Proof.
  unfold readToken.
  destruct (extractToken _ _) as [s |]; [| reflexivity].
  destruct (truthy_str _); [| reflexivity].
  destruct (jwt_deserialize s true) as [js |]; [| reflexivity].
  destruct (JSON_parse js); reflexivity.
Qed.

Lemma readToken_by_name (jwt_deserialize : string -> bool -> option string)
    (JSON_parse : string -> option (option Token)) (params : gmap string string)
    (request : Request) (w : World) :
  readToken jwt_deserialize JSON_parse request (getTokenName params request) w
  = match extractToken request (getTokenName params request) with
    | Some s =>
        if truthy_str (Some s) then
          match jwt_deserialize s true with
          | Some js =>
              match JSON_parse js with
              | Some v => (Return v, w)
              | None => (Throw DeserializeError, w)
              end
          | None => (Throw DeserializeError, w)
          end
        else (Return None, w)
    | None => (Return None, w)
    end.
Proof.
  unfold readToken.
  rewrite (or_else_self _ (getTokenName_nonempty params request)).
  destruct (extractToken _ _) as [s |]; [| reflexivity].
  destruct (truthy_str _); [| reflexivity].
  destruct (jwt_deserialize s true) as [js |]; [| reflexivity].
  destruct (JSON_parse js); reflexivity.
Qed.

Lemma isAccessTokenAlive_total (clock : nat -> Z) (token : Token) (w : World) :
  exists (b : bool) (k : nat),
    isAccessTokenAlive clock token w = (Return b, later k w).
Proof.
  unfold isAccessTokenAlive.
  destruct (tk_exp token) as [e |]; [destruct (truthy_num (Some e)) |].
  - eexists. exists 1%nat. reflexivity.
  - exists false, 0%nat. rewrite later_0. reflexivity.
  - exists false, 0%nat. rewrite later_0. reflexivity.
Qed.

(** X12: on a URL that requires authentication, a request without
    cookies, or whose cookie object holds neither the token cookie (or
    holds it empty) nor a cookie named [length], is rejected with the
    token-not-found error before anything else happens: no clock read, no
    call of the signing primitive, no header.  The cookie name is one that
    is not inherited from [Object.prototype]. *)
Theorem missing_token_rejected
    (clock : nat -> Z) (jwt_serialize : Token -> bool -> string)
    (jwt_deserialize : string -> bool -> option string)
    (JSON_parse : string -> option (option Token))
    (rule_test : UrlRule -> string -> bool)
    (unmatched : list UrlRule -> string -> option UrlRule) (expires_date : Z -> string)
    (cfg : Config) (params : gmap string string) (request : Request) (w : World) :
  isAuthenticatedUrl rule_test unmatched cfg (requestURI request) = true ->
  inherited (getTokenName params request) = false ->
  cookies request = NoCookies
  \/ (exists m, cookies request = CookieMap m
                /\ truthy_str (m !! getTokenName params request) = false
                /\ truthy_str (m !! "length") = false) ->
  middleware clock jwt_serialize jwt_deserialize JSON_parse rule_test unmatched
    expires_date cfg params request w
  = (Return false, rejected TokenNotFound w).
Proof.
  intros Hauth _ Hcookies.
  assert (Hnone : truthy_str (extractToken request (getTokenName params request)) = false).
  { unfold extractToken. destruct Hcookies as [-> | [m [-> [Hm _]]]];
      [reflexivity | exact Hm]. }
  unfold middleware. rewrite Hauth. simpl.
  unfold try_catch, proccessAndValidateToken, bind at 1.
  rewrite readToken_by_name.
  destruct (extractToken request (getTokenName params request)) as [s |];
    [rewrite Hnone |]; reflexivity.
Qed.

(** A request with no cookies at all, and one with another cookie only. *)
Lemma missing_token_rejected_demo :
  middleware Demo.clock Demo.serialize Demo.deserialize Demo.parse Demo.rule_test
    Demo.unmatched Demo.expires_date Demo.with_public ∅
    (mkRequest "/home" ∅ NoCookies) Demo.w0
  = (Return false, rejected TokenNotFound Demo.w0)
  /\ middleware Demo.clock Demo.serialize Demo.deserialize Demo.parse Demo.rule_test
       Demo.unmatched Demo.expires_date Demo.with_public ∅
       (mkRequest "/home" ∅ (CookieMap {[ "lang" := "pt" ]})) Demo.w0
     = (Return false, rejected TokenNotFound Demo.w0).
Proof.
  split.
  - apply (missing_token_rejected Demo.clock Demo.serialize Demo.deserialize Demo.parse
             Demo.rule_test Demo.unmatched Demo.expires_date Demo.with_public ∅
             (mkRequest "/home" ∅ NoCookies) Demo.w0);
      [reflexivity | reflexivity | left; reflexivity].
  - apply (missing_token_rejected Demo.clock Demo.serialize Demo.deserialize Demo.parse
             Demo.rule_test Demo.unmatched Demo.expires_date Demo.with_public ∅
             (mkRequest "/home" ∅ (CookieMap {[ "lang" := "pt" ]})) Demo.w0);
      [reflexivity | reflexivity |].
    right. exists {[ "lang" := "pt" ]}. repeat split.
Defined.

(** X13: on a URL that requires authentication, a non-empty cookie that the
    signing primitive refuses, or whose content does not parse, is rejected
    with that error; one whose content parses to a falsy value such as
    [null] is rejected as token not found.  In each case nothing but the
    rejection is written and the clock is not read. *)
Theorem malformed_token_rejected
    (clock : nat -> Z) (jwt_serialize : Token -> bool -> string)
    (jwt_deserialize : string -> bool -> option string)
    (JSON_parse : string -> option (option Token))
    (rule_test : UrlRule -> string -> bool)
    (unmatched : list UrlRule -> string -> option UrlRule) (expires_date : Z -> string)
    (cfg : Config) (params : gmap string string) (request : Request)
    (s : string) (w : World) :
  isAuthenticatedUrl rule_test unmatched cfg (requestURI request) = true ->
  extractToken request (getTokenName params request) = Some s ->
  s <> EmptyString ->
  match jwt_deserialize s true with
  | None =>
      middleware clock jwt_serialize jwt_deserialize JSON_parse rule_test unmatched
        expires_date cfg params request w
      = (Return false, rejected DeserializeError w)
  | Some js =>
      match JSON_parse js with
      | None =>
          middleware clock jwt_serialize jwt_deserialize JSON_parse rule_test unmatched
            expires_date cfg params request w
          = (Return false, rejected DeserializeError w)
      | Some None =>
          middleware clock jwt_serialize jwt_deserialize JSON_parse rule_test unmatched
            expires_date cfg params request w
          = (Return false, rejected TokenNotFound w)
      | Some (Some token) =>
          readToken jwt_deserialize JSON_parse request (getTokenName params request) w
          = (Return (Some token), w)
      end
  end.
Proof.
  intros Hauth Hs Hne.
  assert (Ht : truthy_str (Some s) = true).
  { simpl. destruct (String.eqb_spec s EmptyString); [contradiction | reflexivity]. }
  pose proof (readToken_by_name jwt_deserialize JSON_parse params request w) as Hread.
  rewrite Hs, Ht in Hread.
  assert (Hthrow : forall e v,
            readToken jwt_deserialize JSON_parse request (getTokenName params request) w
            = (v, w) ->
            v = Throw e \/ (v = Return None /\ e = TokenNotFound) ->
            middleware clock jwt_serialize jwt_deserialize JSON_parse rule_test unmatched
              expires_date cfg params request w
            = (Return false, rejected e w)).
  { intros e v Hv Hcase. unfold middleware. rewrite Hauth.
    change (negb true) with false. cbv beta iota.
    assert (Hproc :
      proccessAndValidateToken clock jwt_serialize jwt_deserialize JSON_parse
        rule_test unmatched expires_date cfg params request w = (Throw e, w)).
    { unfold proccessAndValidateToken.
      destruct Hcase as [-> | [-> ->]].
      - rewrite (bind_throw _ _ _ _ _ Hv). reflexivity.
      - rewrite (bind_return _ _ _ _ _ Hv). reflexivity. }
    unfold try_catch. rewrite Hproc. reflexivity. }
  destruct (jwt_deserialize s true) as [js |].
  - destruct (JSON_parse js) as [[token |] |].
    + exact Hread.
    + apply (Hthrow TokenNotFound _ Hread). right. split; reflexivity.
    + apply (Hthrow DeserializeError _ Hread). left. reflexivity.
  - apply (Hthrow DeserializeError _ Hread). left. reflexivity.
Qed.

(** The cookie left by [destroyAuthentication], and a payload [null]. *)
Lemma malformed_token_rejected_demo :
  middleware Demo.clock Demo.serialize Demo.deserialize Demo.parse Demo.rule_test Demo.unmatched
    Demo.expires_date initial ∅ (Demo.get "/home" "undefined") Demo.w0
  = (Return false, rejected DeserializeError Demo.w0)
  /\ middleware Demo.clock Demo.serialize Demo.deserialize Demo.parse Demo.rule_test Demo.unmatched
       Demo.expires_date initial ∅ (Demo.get "/home" "null") Demo.w0
     = (Return false, rejected TokenNotFound Demo.w0).
Proof.
  split.
  - apply (malformed_token_rejected Demo.clock Demo.serialize Demo.deserialize
             Demo.parse Demo.rule_test Demo.unmatched Demo.expires_date initial ∅
             (Demo.get "/home" "undefined") "undefined" Demo.w0);
      [reflexivity | reflexivity | discriminate].
  - apply (malformed_token_rejected Demo.clock Demo.serialize Demo.deserialize
             Demo.parse Demo.rule_test Demo.unmatched Demo.expires_date initial ∅
             (Demo.get "/home" "null") "null" Demo.w0);
      [reflexivity | reflexivity | discriminate].
Defined.

(** The path of a live token through [proccessAndValidateToken]. *)
Lemma live_token_processing
    (clock : nat -> Z) (jwt_serialize : Token -> bool -> string)
    (jwt_deserialize : string -> bool -> option string)
    (JSON_parse : string -> option (option Token))
    (rule_test : UrlRule -> string -> bool)
    (unmatched : list UrlRule -> string -> option UrlRule) (expires_date : Z -> string)
    (cfg : Config) (params : gmap string string) (request : Request)
    (token : Token) (e : Z) (w : World) :
  readToken jwt_deserialize JSON_parse request (getTokenName params request) w
  = (Return (Some token), w) ->
  tk_exp token = Some e ->
  e <> 0 ->
  clock (tick w) <= e ->
  proccessAndValidateToken clock jwt_serialize jwt_deserialize JSON_parse rule_test unmatched
    expires_date cfg params request w
  = if isAuthorized rule_test unmatched cfg request (token_data token)
    then (Return tt, with_userData (tk_udata token) (later 1 w))
    else (Throw NotAllowed, later 1 w).
Proof.
  intros Hread He Hnz Hlive.
  assert (Halive : isAccessTokenAlive clock token w = (Return true, later 1 w)).
  { unfold isAccessTokenAlive. rewrite He. unfold truthy_num.
    destruct (Z.eqb_spec e 0) as [E | _]; [contradiction |]. simpl.
    unfold bind, now, ret; simpl. f_equal. f_equal.
    rewrite Z.geb_leb. apply Z.leb_le. exact Hlive. }
  unfold proccessAndValidateToken.
  rewrite (bind_return _ _ _ _ _ Hread).
  rewrite (bind_return _ _ _ _ _ Halive). simpl negb. cbv iota.
  unfold bind at 1, ret at 1. fold (token_data token).
  destruct (isAuthorized rule_test unmatched cfg request (token_data token)); reflexivity.
Qed.

(** X14: a token whose [exp] is not [0] and not before the current time
    (the very millisecond of expiry included) is not refreshed: one clock
    read, no header; the request passes with the token's [udata] attached
    exactly when [isAuthorized] holds for the token's data, and otherwise
    fails with the authorization error. *)
Theorem live_token_not_refreshed
    (clock : nat -> Z) (jwt_serialize : Token -> bool -> string)
    (jwt_deserialize : string -> bool -> option string)
    (JSON_parse : string -> option (option Token))
    (rule_test : UrlRule -> string -> bool)
    (unmatched : list UrlRule -> string -> option UrlRule) (expires_date : Z -> string)
    (cfg : Config) (params : gmap string string) (request : Request)
    (token : Token) (e : Z) (w : World) :
  readToken jwt_deserialize JSON_parse request (getTokenName params request) w
  = (Return (Some token), w) ->
  tk_exp token = Some e ->
  e <> 0 ->
  clock (tick w) <= e ->
  proccessAndValidateToken clock jwt_serialize jwt_deserialize JSON_parse rule_test unmatched
    expires_date cfg params request w
  = if isAuthorized rule_test unmatched cfg request (token_data token)
    then (Return tt, with_userData (tk_udata token) (later 1 w))
    else (Throw NotAllowed, later 1 w).
Proof.
  exact (live_token_processing clock jwt_serialize jwt_deserialize JSON_parse
           rule_test unmatched expires_date cfg params request token e w).
Qed.

(** The token issued at time 1000000 is presented 1000 clock reads later. *)
Lemma live_token_not_refreshed_demo :
  proccessAndValidateToken Demo.clock Login.serialize Login.deserialize Login.parse
    Demo.rule_test Demo.unmatched Demo.expires_date Demo.admin_only ∅
    (Demo.get "/admin/reports" "signed") Login.later_world
  = if isAuthorized Demo.rule_test Demo.unmatched Demo.admin_only (Demo.get "/admin/reports" "signed")
         (token_data Login.payload)
    then (Return tt, with_userData (tk_udata Login.payload) (later 1 Login.later_world))
    else (Throw NotAllowed, later 1 Login.later_world).
Proof.
  apply (live_token_not_refreshed Demo.clock Login.serialize Login.deserialize
           Login.parse Demo.rule_test Demo.unmatched Demo.expires_date Demo.admin_only ∅
           (Demo.get "/admin/reports" "signed") Login.payload 1300000
           Login.later_world).
  - reflexivity.
  - reflexivity.
  - discriminate.
  - discriminate.
Defined.

(** X15: when the refresh token is alive but [canRefreshTokenFn] returns
    false for the token, [tryToRefreshToken] throws the refresh-denied
    error after two clock reads (the liveness check and the date of the
    message) and writes no header. *)
Theorem refresh_denied
    (clock : nat -> Z) (jwt_serialize : Token -> bool -> string)
    (expires_date : Z -> string) (cfg : Config) (params : gmap string string)
    (request : Request) (token : Token) (f : Token -> bool) (r : Z) (w : World) :
  tk_rtexp token = Some r ->
  r <> 0 ->
  clock (tick w) <= r ->
  authCanRefreshTokenFn cfg = Some f ->
  f token = false ->
  tryToRefreshToken clock jwt_serialize expires_date cfg params request token w
  = (Throw (RefreshDenied (clock (1 + tick w)%nat)), later 2 w).
Proof.
  intros Hr Hnz Hfut Hf Hdeny.
  unfold tryToRefreshToken.
  rewrite (bind_return _ _ _ _ _
             (isRefreshTokenAlive_future clock token r w Hr Hnz Hfut)).
  simpl. rewrite Hf, Hdeny. reflexivity.
Qed.

(** A predicate that denies every refresh. *)
Lemma refresh_denied_demo :
  tryToRefreshToken Demo.clock Demo.serialize Demo.expires_date
    (canRefreshTokenFn (Some (fun _ => false)) initial) ∅
    (Demo.get "/home" "stale") Demo.stale Demo.w0
  = (Throw (RefreshDenied (Demo.clock (1 + tick Demo.w0)%nat)), later 2 Demo.w0).
Proof.
  apply (refresh_denied Demo.clock Demo.serialize Demo.expires_date
           (canRefreshTokenFn (Some (fun _ => false)) initial) ∅
           (Demo.get "/home" "stale") Demo.stale (fun _ => false) 2000000 Demo.w0).
  - reflexivity.
  - discriminate.
  - discriminate.
  - reflexivity.
  - reflexivity.
Defined.

Lemma tryToRefreshToken_failure_frame
    (clock : nat -> Z) (jwt_serialize : Token -> bool -> string)
    (expires_date : Z -> string) (cfg : Config) (params : gmap string string)
    (request : Request) (token : Token) (e : Error) (w w' : World) :
  tryToRefreshToken clock jwt_serialize expires_date cfg params request token w
  = (Throw e, w') ->
  exists k : nat, w' = later k w.
Proof.
  destruct (isRefreshTokenAlive_total clock token w) as [b [k Hk]].
  unfold tryToRefreshToken. rewrite (bind_return _ _ _ _ _ Hk).
  destruct b; simpl.
  - destruct (authCanRefreshTokenFn cfg) as [f |]; [destruct (f token) |];
      unfold bind, now, ret, throw, setTokenIntoHeader, addHeader; simpl;
      try (destruct (tk_udata token); simpl);
      intros H; inversion H; subst; exists (1 + k)%nat; reflexivity.
  - unfold bind, now, throw; simpl. intros H; inversion H; subst.
    exists (1 + k)%nat. reflexivity.
Qed.

(** X16: when [tryToRefreshToken] throws, it has written nothing: only
    clock reads separate the world from the one it started in; and the
    error is the refresh-expired error, the refresh-denied error, or the
    [TypeError] of a token without [udata]. *)
Theorem tryToRefreshToken_failure_writes_nothing
    (clock : nat -> Z) (jwt_serialize : Token -> bool -> string)
    (expires_date : Z -> string) (cfg : Config) (params : gmap string string)
    (request : Request) (token : Token) (e : Error) (w w' : World) :
  tryToRefreshToken clock jwt_serialize expires_date cfg params request token w
  = (Throw e, w') ->
  (exists k : nat, w' = later k w)
  /\ ((exists d, e = RefreshTokenExpired d)
      \/ (exists d, e = RefreshDenied d)
      \/ (e = TypeError /\ tk_udata token = None)).
Proof.
  destruct (isRefreshTokenAlive_total clock token w) as [b [k Hk]].
  unfold tryToRefreshToken. rewrite (bind_return _ _ _ _ _ Hk).
  destruct b; simpl.
  - destruct (authCanRefreshTokenFn cfg) as [f |]; [destruct (f token) |];
      unfold bind, now, ret, throw, setTokenIntoHeader, addHeader; simpl.
    + destruct (tk_udata token) eqn:Hud; simpl; intros H; inversion H; subst.
      split; [exists (1 + k)%nat; reflexivity |]. right; right. split; reflexivity.
    + intros H; inversion H; subst.
      split; [exists (1 + k)%nat; reflexivity |]. right; left. eexists; reflexivity.
    + destruct (tk_udata token) eqn:Hud; simpl; intros H; inversion H; subst.
      split; [exists (1 + k)%nat; reflexivity |]. right; right. split; reflexivity.
  - unfold bind, now, throw; simpl. intros H; inversion H; subst.
    split; [exists (1 + k)%nat; reflexivity |]. left. eexists; reflexivity.
Qed.

(** The refresh of a token whose [rtexp] has passed. *)
Lemma tryToRefreshToken_failure_writes_nothing_demo :
  (exists k : nat, later 2 Demo.w0 = later k Demo.w0)
  /\ ((exists d, RefreshTokenExpired 1000001 = RefreshTokenExpired d)
      \/ (exists d, RefreshTokenExpired 1000001 = RefreshDenied d)
      \/ (RefreshTokenExpired 1000001 = TypeError /\ tk_udata Demo.dead = None)).
Proof.
  apply (tryToRefreshToken_failure_writes_nothing Demo.clock Demo.serialize
           Demo.expires_date initial ∅ (Demo.get "/home" "dead") Demo.dead
           (RefreshTokenExpired 1000001) Demo.w0 (later 2 Demo.w0)).
  reflexivity.
Defined.

(** ** What a passed and a rejected request leave behind *)

(** Whenever token processing returns, a token was read, the caller is
    authorized for the token's data, and the token's [udata] is attached. *)
Lemma proccessAndValidateToken_returns
    (clock : nat -> Z) (jwt_serialize : Token -> bool -> string)
    (jwt_deserialize : string -> bool -> option string)
    (JSON_parse : string -> option (option Token))
    (rule_test : UrlRule -> string -> bool)
    (unmatched : list UrlRule -> string -> option UrlRule) (expires_date : Z -> string)
    (cfg : Config) (params : gmap string string) (request : Request)
    (u : unit) (w w' : World) :
  proccessAndValidateToken clock jwt_serialize jwt_deserialize JSON_parse rule_test unmatched
    expires_date cfg params request w = (Return u, w') ->
  exists (token : Token) (w1 : World),
    readToken jwt_deserialize JSON_parse request (getTokenName params request) w
    = (Return (Some token), w)
    /\ isAuthorized rule_test unmatched cfg request (token_data token) = true
    /\ w' = with_userData (tk_udata token) w1.
Proof.
  unfold proccessAndValidateToken.
  pose proof (readToken_pure jwt_deserialize JSON_parse request
                (getTokenName params request) w) as Hpure.
  destruct (readToken jwt_deserialize JSON_parse request
              (getTokenName params request) w) as [[o | e] w0] eqn:Hread;
    simpl in Hpure; subst w0.
  2: { rewrite (bind_throw _ _ _ _ _ Hread). discriminate. }
  rewrite (bind_return _ _ _ _ _ Hread).
  destruct o as [token |]; [| discriminate].
  destruct (isAccessTokenAlive_total clock token w) as [alive [k Hk]].
  rewrite (bind_return _ _ _ _ _ Hk).
  assert (Hlast : forall (token' : Token) (w1 : World),
            tk_udata token' = tk_udata token ->
            (if negb (isAuthorized rule_test unmatched cfg request
                        match tk_udata token' with
                        | Some ud => ud_data ud
                        | None => None
                        end)
             then throw NotAllowed
             else set_userData (tk_udata token')) w1 = (Return u, w') ->
            isAuthorized rule_test unmatched cfg request (token_data token) = true
            /\ w' = with_userData (tk_udata token) w1).
  { intros token' w1 Hud. unfold token_data. rewrite Hud.
    destruct (isAuthorized rule_test unmatched cfg request _); simpl;
      intros H; inversion H; subst. split; reflexivity. }
  destruct alive; simpl negb; cbv iota.
  - unfold bind at 1, ret at 1. intros H.
    exists token, (later k w). split; [reflexivity |].
    exact (Hlast token (later k w) eq_refl H).
  - destruct (tryToRefreshToken clock jwt_serialize expires_date cfg params request
                token (later k w)) as [[token' | e] w1] eqn:Hrefresh.
    + rewrite (bind_return _ _ _ _ _ Hrefresh). intros H.
      apply tryToRefreshToken_returns in Hrefresh
        as [ud [t1 [t2 [t3 [k' [Hud [Htok Hw1]]]]]]].
      exists token, w1. split; [reflexivity |].
      apply (Hlast token' w1); [rewrite Htok; reflexivity | exact H].
    + rewrite (bind_throw _ _ _ _ _ Hrefresh). discriminate.
Qed.

(** X17: on a URL that requires authentication, [middleware] returns true
    only if a token was read from the request, [isAuthorized] holds for the
    data of that token, and [request.userData] is then the [udata] of the
    token. *)
Theorem middleware_pass_is_authorized
    (clock : nat -> Z) (jwt_serialize : Token -> bool -> string)
    (jwt_deserialize : string -> bool -> option string)
    (JSON_parse : string -> option (option Token))
    (rule_test : UrlRule -> string -> bool)
    (unmatched : list UrlRule -> string -> option UrlRule) (expires_date : Z -> string)
    (cfg : Config) (params : gmap string string) (request : Request)
    (w w' : World) :
  isAuthenticatedUrl rule_test unmatched cfg (requestURI request) = true ->
  middleware clock jwt_serialize jwt_deserialize JSON_parse rule_test unmatched expires_date
    cfg params request w = (Return true, w') ->
  exists token : Token,
    readToken jwt_deserialize JSON_parse request (getTokenName params request) w
    = (Return (Some token), w)
    /\ isAuthorized rule_test unmatched cfg request (token_data token) = true
    /\ userData w' = Some (tk_udata token).
Proof.
  intros Hauth. unfold middleware. rewrite Hauth.
  change (negb true) with false. cbv beta iota. unfold try_catch.
  destruct (proccessAndValidateToken clock jwt_serialize jwt_deserialize JSON_parse
              rule_test unmatched expires_date cfg params request w) as [[u | e] w1] eqn:Hproc.
  - intros H. inversion H; subst w1.
    apply proccessAndValidateToken_returns in Hproc as [token [w1 [Hread [Hok Hw']]]].
    exists token. split; [exact Hread |]. split; [exact Hok |].
    rewrite Hw'. reflexivity.
  - simpl. intros H. discriminate H.
Qed.

(** The stale token of an administrator on [/admin/reports]. *)
Lemma middleware_pass_is_authorized_demo :
  exists token : Token,
    readToken Demo.deserialize Demo.parse (Demo.get "/admin/reports" "stale")
      (getTokenName ∅ (Demo.get "/admin/reports" "stale")) Demo.w0
    = (Return (Some token), Demo.w0)
    /\ isAuthorized Demo.rule_test Demo.unmatched Demo.admin_only (Demo.get "/admin/reports" "stale")
         (token_data token) = true
    /\ userData
         (snd (middleware Demo.clock Demo.serialize Demo.deserialize Demo.parse
                 Demo.rule_test Demo.unmatched Demo.expires_date Demo.admin_only ∅
                 (Demo.get "/admin/reports" "stale") Demo.w0))
       = Some (tk_udata token).
Proof.
  apply (middleware_pass_is_authorized Demo.clock Demo.serialize Demo.deserialize
           Demo.parse Demo.rule_test Demo.unmatched Demo.expires_date Demo.admin_only ∅
           (Demo.get "/admin/reports" "stale") Demo.w0
           (snd (middleware Demo.clock Demo.serialize Demo.deserialize Demo.parse
                   Demo.rule_test Demo.unmatched Demo.expires_date Demo.admin_only ∅
                   (Demo.get "/admin/reports" "stale") Demo.w0))).
  - reflexivity.
  - reflexivity.
Defined.

(** *** What leaves [request.userData] alone *)

Lemma keeps_userData_tryToRefreshToken
    (clock : nat -> Z) (jwt_serialize : Token -> bool -> string)
    (expires_date : Z -> string) (cfg : Config) (params : gmap string string)
    (request : Request) (token : Token) :
  keeps_userData
    (tryToRefreshToken clock jwt_serialize expires_date cfg params request token).
Proof.
  intros w.
  destruct (tryToRefreshToken clock jwt_serialize expires_date cfg params request
              token w) as [[token' | e] w1] eqn:H; simpl.
  - apply tryToRefreshToken_returns in H as [ud [t1 [t2 [t3 [k [_ [_ Hw]]]]]]].
    rewrite Hw. reflexivity.
  - apply tryToRefreshToken_failure_frame in H as [k Hw]. rewrite Hw. reflexivity.
Qed.

(** When token processing throws, [request.userData] is as it was. *)
Lemma proccessAndValidateToken_throws
    (clock : nat -> Z) (jwt_serialize : Token -> bool -> string)
    (jwt_deserialize : string -> bool -> option string)
    (JSON_parse : string -> option (option Token))
    (rule_test : UrlRule -> string -> bool)
    (unmatched : list UrlRule -> string -> option UrlRule) (expires_date : Z -> string)
    (cfg : Config) (params : gmap string string) (request : Request)
    (e : Error) (w w' : World) :
  proccessAndValidateToken clock jwt_serialize jwt_deserialize JSON_parse rule_test unmatched
    expires_date cfg params request w = (Throw e, w') ->
  userData w' = userData w.
Proof.
  unfold proccessAndValidateToken.
  pose proof (readToken_pure jwt_deserialize JSON_parse request
                (getTokenName params request) w) as Hpure.
  destruct (readToken jwt_deserialize JSON_parse request
              (getTokenName params request) w) as [[o | e0] w0] eqn:Hread;
    simpl in Hpure; subst w0.
  2: { rewrite (bind_throw _ _ _ _ _ Hread). intros H; inversion H; reflexivity. }
  rewrite (bind_return _ _ _ _ _ Hread).
  destruct o as [token |]; [| intros H; inversion H; reflexivity].
  destruct (isAccessTokenAlive_total clock token w) as [alive [k Hk]].
  rewrite (bind_return _ _ _ _ _ Hk).
  assert (Hlast : forall (token' : Token) (w1 : World),
            userData w1 = userData w ->
            (if negb (isAuthorized rule_test unmatched cfg request
                        match tk_udata token' with
                        | Some ud => ud_data ud
                        | None => None
                        end)
             then throw NotAllowed
             else set_userData (tk_udata token')) w1 = (Throw e, w') ->
            userData w' = userData w).
  { intros token' w1 Hw1. destruct (negb _); intros H; inversion H; subst.
    exact Hw1. }
  destruct alive; simpl negb; cbv iota.
  - unfold bind at 1, ret at 1. apply Hlast. reflexivity.
  - pose proof (keeps_userData_tryToRefreshToken clock jwt_serialize expires_date
                  cfg params request token (later k w)) as Hkeep.
    destruct (tryToRefreshToken clock jwt_serialize expires_date cfg params request
                token (later k w)) as [[token' | e1] w1] eqn:Hrefresh;
      simpl in Hkeep.
    + rewrite (bind_return _ _ _ _ _ Hrefresh). apply Hlast. exact Hkeep.
    + rewrite (bind_throw _ _ _ _ _ Hrefresh). intros H; inversion H; subst.
      exact Hkeep.
Qed.

(** X18: a request that [middleware] rejects leaves [request.userData] as it
    was: an identity is attached only to a request that passes. *)
Theorem middleware_reject_attaches_nothing
    (clock : nat -> Z) (jwt_serialize : Token -> bool -> string)
    (jwt_deserialize : string -> bool -> option string)
    (JSON_parse : string -> option (option Token))
    (rule_test : UrlRule -> string -> bool)
    (unmatched : list UrlRule -> string -> option UrlRule) (expires_date : Z -> string)
    (cfg : Config) (params : gmap string string) (request : Request)
    (w w' : World) :
  middleware clock jwt_serialize jwt_deserialize JSON_parse rule_test unmatched expires_date
    cfg params request w = (Return false, w') ->
  userData w' = userData w.
Proof.
  unfold middleware.
  destruct (isAuthenticatedUrl rule_test unmatched cfg (requestURI request)); simpl;
    [| intros H; discriminate H].
  unfold try_catch.
  destruct (proccessAndValidateToken clock jwt_serialize jwt_deserialize JSON_parse
              rule_test unmatched expires_date cfg params request w) as [[u | e] w1] eqn:Hproc.
  - intros H; discriminate H.
  - simpl. intros H; inversion H; subst. simpl.
    exact (proccessAndValidateToken_throws clock jwt_serialize jwt_deserialize
             JSON_parse rule_test unmatched expires_date cfg params request
             e w w1 Hproc).
Qed.

(** A token that can no longer be refreshed, on [/admin/reports]. *)
Lemma middleware_reject_attaches_nothing_demo :
  userData
    (snd (middleware Demo.clock Demo.serialize Demo.deserialize Demo.parse
            Demo.rule_test Demo.unmatched Demo.expires_date Demo.admin_only ∅
            (Demo.get "/admin/reports" "dead") Demo.w0))
  = userData Demo.w0.
Proof.
  apply (middleware_reject_attaches_nothing Demo.clock Demo.serialize Demo.deserialize
           Demo.parse Demo.rule_test Demo.unmatched Demo.expires_date Demo.admin_only ∅
           (Demo.get "/admin/reports" "dead") Demo.w0).
  reflexivity.
Defined.

(** ** Liveness *)

(** X19: a token is alive for access exactly when its [exp] is present,
    is not [0] and is not before the clock, the millisecond of expiry
    itself still counting as alive; likewise for refresh with [rtexp]. *)
Theorem token_alive_iff (clock : nat -> Z) (token : Token) (w : World) :
  (fst (isAccessTokenAlive clock token w) = Return true
   <-> exists e, tk_exp token = Some e /\ e <> 0 /\ clock (tick w) <= e)
  /\ (fst (isRefreshTokenAlive clock token w) = Return true
      <-> exists r, tk_rtexp token = Some r /\ r <> 0 /\ clock (tick w) <= r).
Proof.
  assert (Hgen : forall v : option Z,
            fst (match v with
                 | Some e =>
                     if truthy_num (Some e)
                     then bind (now clock) (fun t => ret (e >=? t))
                     else ret false
                 | None => ret false
                 end w) = Return true
            <-> exists e, v = Some e /\ e <> 0 /\ clock (tick w) <= e).
  { intros [e |]; simpl.
    - destruct (Z.eqb_spec e 0) as [E | Hnz]; simpl.
      + split; [discriminate |]. intros [e' [He' [Hnz' _]]].
        inversion He'; subst. contradiction.
      + unfold bind, now, ret; simpl. rewrite Z.geb_leb.
        destruct (Z.leb_spec (clock (tick w)) e) as [Hle | Hgt].
        * split; [| reflexivity]. intros _. exists e. auto.
        * split; [discriminate |]. intros [e' [He' [_ Hle']]].
          inversion He'; subst. lia.
    - split; [discriminate |]. intros [e [He _]]. discriminate He. }
  split.
  - exact (Hgen (tk_exp token)).
  - exact (Hgen (tk_rtexp token)).
Qed.

(** ** The custom authorize function *)

(** X20: when a custom authorize function is configured together with a
    rule set, the caller's roles are not looked at: on a URI that some
    rule's pattern matches, [isAuthorized] holds exactly when the function
    accepts a rule whose pattern matches the URI, the function being given
    the request, the URI, the rule's data, the caller data and the rule. *)
Theorem isAuthorized_custom_function
    (rule_test : UrlRule -> string -> bool)
    (unmatched : list UrlRule -> string -> option UrlRule) (cfg : Config)
    (request : Request) (userData : option UserData) (rules : list UrlRule)
    (f : Request -> string -> list string -> option UserData -> UrlRule -> bool) :
  authAuthorizeFn cfg = Some f ->
  authAuthorizations cfg = Some rules ->
  (exists r, In r rules /\ rule_test r (requestURI request) = true) ->
  isAuthorized rule_test unmatched cfg request userData = true
  <-> exists r, In r rules /\ rule_test r (requestURI request) = true
               /\ f request (requestURI request) (rule_data r) userData r = true.
Proof.
  intros Hf Hrules Hm. unfold isAuthorized. rewrite Hrules, Hf.
  cbn [is_some negb andb]. cbv zeta.
  exact (urlMatches_matched rule_test unmatched rules (requestURI request) _ Hm).
Qed.

(** A function that accepts everything lets a caller without roles into
    [/admin/reports]. *)
Lemma isAuthorized_custom_function_demo :
  isAuthorized Demo.rule_test Demo.unmatched Login.allow_all
    (Demo.get "/admin/reports" "none") None
  = true.
Proof.
  apply (isAuthorized_custom_function Demo.rule_test Demo.unmatched Login.allow_all
           (Demo.get "/admin/reports" "none") None
           [mkUrlRule "/admin/*" ["admin"]] (fun _ _ _ _ _ => true) eq_refl eq_refl).
  - exists (mkUrlRule "/admin/*" ["admin"]). split; [left; reflexivity | reflexivity].
  - exists (mkUrlRule "/admin/*" ["admin"]).
    split; [left; reflexivity |]. split; reflexivity.
Defined.

(** X22: without a custom authorize function, a caller authorized with an
    array of roles stays authorized when roles are added to the array. *)
Theorem isAuthorized_more_roles
    (rule_test : UrlRule -> string -> bool)
    (unmatched : list UrlRule -> string -> option UrlRule) (cfg : Config)
    (request : Request) (l l' : list string) (x : string) :
  authAuthorizeFn cfg = None ->
  isAuthorized rule_test unmatched cfg request (Some (mkUserData (RolesArr l) x)) = true ->
  isAuthorized rule_test unmatched cfg request (Some (mkUserData (RolesArr (l ++ l')) x))
  = true.
Proof.
  intros Hfn Hyes.
  destruct (authAuthorizations cfg) as [rules |] eqn:Hrules.
  - destruct (existsb (fun r => rule_test r (requestURI request)) rules) eqn:Hm.
    + apply (matched_existsb rule_test) in Hm.
      apply (proj2 (isAuthorized_by_roles rule_test unmatched cfg request
                      (Some (mkUserData (RolesArr (l ++ l')) x)) rules Hfn Hrules
                      eq_refl Hm)).
      destruct (proj1 (isAuthorized_by_roles rule_test unmatched cfg request
                         (Some (mkUserData (RolesArr l) x)) rules Hfn Hrules
                         eq_refl Hm) Hyes) as [r [Hin [Ht [role [Hd Hr]]]]].
      exists r. split; [exact Hin |]. split; [exact Ht |].
      exists role. split; [exact Hd |]. simpl in *. apply in_or_app. left; exact Hr.
    + rewrite (isAuthorized_unmatched rule_test unmatched cfg request
                 (Some (mkUserData (RolesArr (l ++ l')) x)) rules Hrules
                 (or_intror eq_refl) Hm).
      rewrite (isAuthorized_unmatched rule_test unmatched cfg request
                 (Some (mkUserData (RolesArr l) x)) rules Hrules
                 (or_intror eq_refl) Hm) in Hyes.
      exact Hyes.
  - unfold isAuthorized. rewrite Hrules. reflexivity.
Qed.

(** An administrator who is given the role [user] as well. *)
Lemma isAuthorized_more_roles_demo :
  isAuthorized Demo.rule_test Demo.unmatched Demo.admin_only
    (Demo.get "/admin/reports" "none")
    (Some (mkUserData (RolesArr (["admin"] ++ ["user"])) EmptyString)) = true.
Proof.
  apply (isAuthorized_more_roles Demo.rule_test Demo.unmatched Demo.admin_only
           (Demo.get "/admin/reports" "none") ["admin"] ["user"] EmptyString).
  - reflexivity.
  - reflexivity.
Defined.

(** ** From login to request *)

(** X21: the token that [createAuthentication] returns, once the signing
    primitive gives its payload back, authenticates a later request: if
    the request carries that token under the cookie name, arrives no later
    than [exp] and the caller is authorized for the data given at login,
    token processing returns after one clock read, writes nothing, and
    attaches [{app, sub, data}] as given at login. *)
Theorem login_then_request
    (clock : nat -> Z) (jwt_serialize : Token -> bool -> string)
    (jwt_deserialize : string -> bool -> option string)
    (JSON_parse : string -> option (option Token))
    (rule_test : UrlRule -> string -> bool)
    (unmatched : list UrlRule -> string -> option UrlRule) (expires_date : Z -> string)
    (cfg : Config) (params0 params : gmap string string) (request0 request : Request)
    (userId appId : string) (data : option UserData) (tkn js : string) (A : Z)
    (w0 w : World) :
  fst (createAuthentication clock jwt_serialize expires_date cfg params0 request0
         userId appId data w0) = Return tkn ->
  jwt_deserialize tkn true = Some js ->
  JSON_parse js
  = Some (Some (authenticationPayload cfg (clock (tick w0)) (clock (S (tick w0)))
                  userId appId data)) ->
  tkn <> EmptyString ->
  extractToken request (getTokenName params request) = Some tkn ->
  getAccessTokenTTL cfg appId = Some A ->
  clock (tick w0) + A <> 0 ->
  clock (tick w) <= clock (tick w0) + A ->
  isAuthorized rule_test unmatched cfg request data = true ->
  proccessAndValidateToken clock jwt_serialize jwt_deserialize JSON_parse rule_test unmatched
    expires_date cfg params request w
  = (Return tt,
     with_userData
       (Some {| ud_app := appId; ud_sub := userId; ud_data := data |})
       (later 1 w)).
Proof.
  intros Hcreate Hdes Hparse Hne Hcookie HA Hnz Hlive Hok.
  set (payload := authenticationPayload cfg (clock (tick w0)) (clock (S (tick w0)))
                    userId appId data) in *.
  assert (Hread :
    readToken jwt_deserialize JSON_parse request (getTokenName params request) w
    = (Return (Some payload), w)).
  { rewrite readToken_by_name, Hcookie. simpl truthy_str.
    destruct (String.eqb_spec tkn EmptyString) as [E | _]; [contradiction |].
    simpl. rewrite Hdes, Hparse. reflexivity. }
  assert (Hexp : tk_exp payload = Some (clock (tick w0) + A)).
  { unfold payload; simpl. rewrite HA. reflexivity. }
  rewrite (live_token_processing clock jwt_serialize jwt_deserialize JSON_parse
             rule_test unmatched expires_date cfg params request payload
             (clock (tick w0) + A) w Hread Hexp Hnz Hlive).
  change (token_data payload) with data. rewrite Hok. reflexivity.
Qed.

(** Login of user 42 of [app1] at time 1000000, request 1000 reads later. *)
Lemma login_then_request_demo :
  proccessAndValidateToken Demo.clock Login.serialize Login.deserialize Login.parse
    Demo.rule_test Demo.unmatched Demo.expires_date initial ∅
    (Demo.get "/admin/reports" "signed") Login.later_world
  = (Return tt,
     with_userData
       (Some {| ud_app := "app1"; ud_sub := "42";
                ud_data := Demo.caller (RolesArr ["admin"]) |})
       (later 1 Login.later_world)).
Proof.
  apply (login_then_request Demo.clock Login.serialize Login.deserialize Login.parse
           Demo.rule_test Demo.unmatched Demo.expires_date initial ∅ ∅
           (Demo.get "/login" "none") (Demo.get "/admin/reports" "signed")
           "42" "app1" (Demo.caller (RolesArr ["admin"])) "signed" "json" 300000
           Demo.w0 Login.later_world).
  - reflexivity.
  - reflexivity.
  - reflexivity.
  - discriminate.
  - reflexivity.
  - reflexivity.
  - discriminate.
  - discriminate.
  - reflexivity.
Defined.

(** ** Scenarios of the TTL maps *)

(** An app named like a member of [Object.prototype] and without an entry
    of its own gets that member, not the default. *)
Example scenario_inherited_app :
  getAccessTokenTTL initial "constructor" = None
  /\ getAccessTokenTTL (accessTokenTTL (TwoArgs "constructor" (Some 1000)) initial)
       "constructor" = Some 1000.
Proof. split; reflexivity. Qed.

(** Assigning under [__proto__] stores nothing. *)
Example scenario_proto_app :
  accessTokenTTL (TwoArgs "__proto__" (Some 1000)) initial = initial.
Proof. reflexivity. Qed.

(** [auth.accessTokenTTL(undefined)] overwrites the default, and
    [auth.accessTokenTTL()] writes under the key [undefined]. *)
Example scenario_undefined_ttl :
  getAccessTokenTTL (accessTokenTTL (OneArg None) initial) "app1" = None
  /\ authAccessTokenTTL (accessTokenTTL NoArgs initial) !! "undefined" = Some None
  /\ getAccessTokenTTL (accessTokenTTL NoArgs initial) "app1" = Some 300000.
Proof. repeat split. Qed.
